(** * FASO TiiM Roogo backend: a shallow embedding of the API service

    The development follows [src/main.py] and [src/schemas.py].

    Numbers.  Python [int] is [Z].  A Python [float] that is read from a
    request or a document, or produced by [+], [*], [/], [max] and [round],
    is an exact rational ([Q]); the great-circle distance, which goes
    through [sin], [cos], [asin] and [sqrt], is computed over the real
    numbers ([R]) and comes back to [Q] through [round].  Rounding error,
    infinities and NaN of IEEE doubles are outside this model.

    Store.  A collection is the list of its documents in insertion order,
    each paired with its [_id].  Handlers that write are functions in a
    small state-and-exception monad over the store; handlers that only read
    are functions from the store to a result. *)

From Stdlib Require Import List String Ascii Bool ZArith NArith QArith Qround.
From Stdlib Require Import Reals Psatz Lia Relations Sorted Permutation.
Import ListNotations.

Local Open Scope string_scope.

(* ================================================================= *)
(** ** Python built-ins used by the handlers *)

Module Py.

(** [if s:] for an [Optional[str]]: [None] and the empty string are falsy. *)
Definition truthy (s : option string) : bool :=
  match s with
  | Some (String _ _) => true
  | _ => false
  end.

Definition Qltb (x y : Q) : bool := negb (Qle_bool y x).

(** [max(a, b)]: the first argument unless the second is strictly larger. *)
Definition max (a b : Q) : Q := if Qltb a b then b else a.

(** Rounding to the nearest integer, ties to the even one. *)
Definition round_half_even (y : Q) : Z :=
  let f := Qfloor y in
  match (y - inject_Z f ?= 1 # 2)%Q with
  | Lt => f
  | Gt => (f + 1)%Z
  | Eq => if Z.even f then f else (f + 1)%Z
  end.

(** [round(x, ndigits)] on a float. *)
Definition round (x : Q) (ndigits : nat) : Q :=
  let s := inject_Z (10 ^ Z.of_nat ndigits) in
  (inject_Z (round_half_even (x * s)) / s)%Q.

(** The same two functions for a float that was computed over [R]. *)
Definition round_half_even_R (y : R) : Z :=
  let f := Zfloor y in
  if Rlt_dec (y - IZR f) (1 / 2) then f
  else if Rlt_dec (1 / 2) (y - IZR f) then (f + 1)%Z
  else if Z.even f then f else (f + 1)%Z.

Definition round_R (x : R) (ndigits : nat) : Q :=
  let s := (10 ^ Z.of_nat ndigits)%Z in
  (inject_Z (round_half_even_R (x * IZR s)) / inject_Z s)%Q.

(** [t1 < t2] on pairs of floats: the first components decide unless
    they are equal. *)
Definition tuple_lt (k1 k2 : Q * Q) : bool :=
  if Qeq_bool (fst k1) (fst k2) then Qltb (snd k1) (snd k2)
  else Qltb (fst k1) (fst k2).

(** [list.sort(key=...)]: a stable sort that compares keys with [<]
    only.  An element goes after every element already placed whose key
    is not larger. *)
Section Sort.
Context {A K : Type} (ltb : K -> K -> bool) (key : A -> K).

Fixpoint insert (x : A) (l : list A) : list A :=
  match l with
  | [] => [x]
  | y :: l' => if ltb (key x) (key y) then x :: y :: l' else y :: insert x l'
  end.

Definition sort (l : list A) : list A :=
  fold_left (fun acc x => insert x acc) l [].
End Sort.

End Py.

(* ================================================================= *)
(** ** Distance utility *)

Section Haversine.
Local Open Scope R_scope.

(** [math.radians] *)
Definition radians (x : R) : R := x * (PI / 180).

Definition haversine_km (lat1 lon1 lat2 lon2 : R) : R :=
  let lon1 := radians lon1 in
  let lat1 := radians lat1 in
  let lon2 := radians lon2 in
  let lat2 := radians lat2 in
  let dlon := lon2 - lon1 in
  let dlat := lat2 - lat1 in
  let a := sin (dlat / 2) ^ 2 + cos lat1 * cos lat2 * sin (dlon / 2) ^ 2 in
  let c := 2 * asin (sqrt a) in
  let r := 6371 in
  c * r.
End Haversine.

(* ================================================================= *)
(** ** Object identifiers of the document store *)

Module bson.

Definition in_range (lo hi : N) (c : ascii) : bool :=
  let n := N_of_ascii c in (lo <=? n)%N && (n <=? hi)%N.

Definition is_hex (c : ascii) : bool :=
  in_range 48 57 c || in_range 65 70 c || in_range 97 102 c.

Definition lower (c : ascii) : ascii :=
  if in_range 65 90 c then ascii_of_N (N_of_ascii c + 32) else c.

Fixpoint lower_string (s : string) : string :=
  match s with
  | EmptyString => EmptyString
  | String c s' => String (lower c) (lower_string s')
  end.

Fixpoint all_hex (s : string) : bool :=
  match s with
  | EmptyString => true
  | String c s' => is_hex c && all_hex s'
  end.

(** An identifier is kept as the string [str(oid)] prints: 24 lower-case
    hexadecimal digits. *)
Definition oid := string.

(** [ObjectId(s)]: [None] stands for the [InvalidId] exception. *)
Definition ObjectId (s : string) : option oid :=
  if (String.length s =? 24)%nat && all_hex s then Some (lower_string s) else None.

Definition str (o : oid) : string := o.

Definition hex_digit (n : N) : ascii :=
  if (n <? 10)%N then ascii_of_N (48 + n) else ascii_of_N (87 + n).

Fixpoint hex (digits : nat) (n : N) : string :=
  match digits with
  | O => EmptyString
  | S d => hex d (n / 16) ++ String (hex_digit (n mod 16)) EmptyString
  end.

(** The identifier the store generates from its counter. *)
Definition generate (counter : N) : oid := hex 24 counter.

End bson.

(* ================================================================= *)
(** ** Data model ([schemas.py]) *)

Module schemas.

Definition one_of (allowed : list string) (s : string) : bool :=
  existsb (String.eqb s) allowed.

Module Medicine.
Record t := mk {
  name : string;
  dci : option string;
  barcode : option string;
  category : option string;
  requires_prescription : bool
}.
End Medicine.

Module Inventory.
Record t := mk {
  pharmacy_id : string;
  medicine_id : string;
  medicine_name : string;
  dci : option string;
  barcode : option string;
  price : Q;
  stock : Z
}.

(** [price: Field(..., ge=0)], [stock: Field(..., ge=0)] *)
Definition validate (i : t) : bool :=
  Qle_bool 0 (price i) && (0 <=? stock i)%Z.
End Inventory.

Module OrderItem.
Record t := mk {
  inventory_id : string;
  medicine_name : string;
  price : Q;
  quantity : Z;
  requires_prescription : bool
}.

(** [quantity: int = Field(..., ge=1)] *)
Definition validate (i : t) : bool := (1 <=? quantity i)%Z.
End OrderItem.

Definition delivery_methods : list string := ["delivery"; "click_collect"].

Definition order_statuses : list string :=
  ["pending_validation"; "validated"; "preparing"; "out_for_delivery";
   "ready_for_pickup"; "delivered"; "cancelled"].

Module Order.
Record t := mk {
  user_name : string;
  user_phone : string;
  pharmacy_id : string;
  items : list OrderItem.t;
  delivery_method : string;
  delivery_address : option string;
  prescription_url : option string;
  status : string;
  service_fee : Q;
  delivery_fee : Q;
  total_amount : Q
}.

(** [items: List[OrderItem]] carries no length constraint; the two
    [Literal] fields are checked. *)
Definition validate (o : t) : bool :=
  forallb OrderItem.validate (items o)
  && one_of delivery_methods (delivery_method o)
  && one_of order_statuses (status o).

Definition set_status (s : string) (o : t) : t :=
  mk (user_name o) (user_phone o) (pharmacy_id o) (items o)
     (delivery_method o) (delivery_address o) (prescription_url o)
     s (service_fee o) (delivery_fee o) (total_amount o).
End Order.

End schemas.
Import schemas.

(* ================================================================= *)
(** ** Database access layer *)

(** Exceptions a handler can end with.  [HTTPException] is the one the
    handlers raise themselves; [InvalidId] comes from [ObjectId],
    [OperationFailure] from the store when it rejects a query,
    [RequestValidationError] from the validation of a request body and
    [ValidationError] from the construction of a model inside a handler. *)
Inductive exn :=
| HTTPException (status_code : Z) (detail : string)
| InvalidId
| OperationFailure
| RequestValidationError
| ValidationError.

Inductive result (A : Type) :=
| Ok (a : A)
| Raise (e : exn).
Arguments Ok {A} a.
Arguments Raise {A} e.

Module database.

(** A pharmacy document as the search reads it: the coordinates may be
    missing from the stored document. *)
Record PharmacyDoc := mkPharmacyDoc {
  ph_name : option string;
  ph_address : option string;
  ph_latitude : option Q;
  ph_longitude : option Q
}.

Definition collection (A : Type) := list (bson.oid * A).

Record Store := mkStore {
  medicine : collection Medicine.t;
  inventory : collection Inventory.t;
  pharmacy : collection PharmacyDoc;
  order : collection Order.t;
  counter : N
}.

(** State and exceptions. *)
Definition M (A : Type) := Store -> result A * Store.

Definition ret {A} (a : A) : M A := fun db => (Ok a, db).
Definition raise {A} (e : exn) : M A := fun db => (Raise e, db).
Definition bind {A B} (m : M A) (k : A -> M B) : M B :=
  fun db =>
    match m db with
    | (Ok a, db') => k a db'
    | (Raise e, db') => (Raise e, db')
    end.
Definition read {A} (f : Store -> A) : M A := fun db => (Ok (f db), db).

(** [coll.find_one({"_id": oid})] *)
Fixpoint find_one {A} (c : collection A) (o : bson.oid) : option A :=
  match c with
  | [] => None
  | (k, d) :: c' => if String.eqb k o then Some d else find_one c' o
  end.

(** [coll.update_one({"_id": oid}, {"$set": ...})]: the first matching
    document is updated; the result carries [matched_count]. *)
Fixpoint update_one {A} (c : collection A) (o : bson.oid) (f : A -> A)
  : Z * collection A :=
  match c with
  | [] => (0%Z, [])
  | (k, d) :: c' =>
      if String.eqb k o then (1%Z, (k, f d) :: c')
      else let (n, c'') := update_one c' o f in (n, (k, d) :: c'')
  end.

Definition set_order (c : collection Order.t) (db : Store) : Store :=
  mkStore (medicine db) (inventory db) (pharmacy db) c (counter db).

(** Modelled from the spec: [database.py] is not part of the sources;
    [create_document(collection_name, validated_entity)] "inserts the
    entity's fields as a new document in the named collection; returns
    the new document's identifier as a string", the identifier being
    "assigned by the store on creation".  Here for the collection
    ["order"], the only one the order routes write to. *)
Definition create_document (data : Order.t) : M string :=
  fun db =>
    let o := bson.generate (counter db) in
    (Ok (bson.str o),
     mkStore (medicine db) (inventory db) (pharmacy db)
             (order db ++ [(o, data)])%list (N.succ (counter db))).

End database.
Import database.

Notation "x <- m ;; k" := (bind m (fun x => k))
  (at level 61, m at next level, right associativity).

(* ================================================================= *)
(** ** Regular expressions of the store

    [{"$regex": q, "$options": "i"}] hands [q] to the regular-expression
    engine of the document store.  The handlers below take the engine as a
    parameter: a function from the pattern to its matcher, [None] when the
    store rejects the pattern.  [Regex.compile] is that engine on the
    patterns made of literal characters, escaped punctuation and [.]; the
    closed examples run with it, on such patterns only.  It answers [None]
    on every other pattern, also on those the store accepts. *)

Module Regex.

Inductive atom :=
| Lit (c : ascii)
| AnyChar.

Definition metacharacters : string := "\^$.|?*+()[]{}".

Definition is_meta (c : ascii) : bool :=
  existsb (Ascii.eqb c) (list_ascii_of_string metacharacters).

Definition is_alnum (c : ascii) : bool :=
  bson.in_range 48 57 c || bson.in_range 65 90 c || bson.in_range 97 122 c.

Fixpoint parse (p : string) : option (list atom) :=
  match p with
  | EmptyString => Some []
  | String c rest =>
      if Ascii.eqb c "." then option_map (cons AnyChar) (parse rest)
      else if Ascii.eqb c "\" then
        match rest with
        | String d rest' =>
            if is_alnum d then None
            else option_map (cons (Lit d)) (parse rest')
        | EmptyString => None
        end
      else if is_meta c then None
      else option_map (cons (Lit c)) (parse rest)
  end.

Definition newline : ascii := ascii_of_N 10.

Definition atom_matches (caseless : bool) (a : atom) (c : ascii) : bool :=
  match a with
  | Lit l =>
      if caseless then Ascii.eqb (bson.lower l) (bson.lower c)
      else Ascii.eqb l c
  | AnyChar => negb (Ascii.eqb c newline)
  end.

Fixpoint match_here (caseless : bool) (atoms : list atom) (s : string) : bool :=
  match atoms, s with
  | [], _ => true
  | a :: atoms', String c s' =>
      atom_matches caseless a c && match_here caseless atoms' s'
  | _ :: _, EmptyString => false
  end.

(** An unanchored search: a match may start at any position. *)
Fixpoint search (caseless : bool) (atoms : list atom) (s : string) : bool :=
  match_here caseless atoms s
  || match s with
     | String _ s' => search caseless atoms s'
     | EmptyString => false
     end.

Definition compile (caseless : bool) (pattern : string)
  : option (string -> bool) :=
  option_map (search caseless) (parse pattern).

(** What the specification says instead of a regular expression: [q]
    occurs in [s] as a substring, letter case ignored. *)
Fixpoint contains (q s : string) : bool :=
  String.prefix q s
  || match s with
     | String _ s' => contains q s'
     | EmptyString => false
     end.

Definition substring_ci (q s : string) : bool :=
  contains (bson.lower_string q) (bson.lower_string s).


End Regex.

(* ================================================================= *)
(** ** API service ([main.py]) *)

Module SearchResponseItem.
Record t := mk {
  inventory_id : string;
  pharmacy_id : string;
  pharmacy_name : string;
  pharmacy_address : string;
  medicine_name : string;
  dci : option string;
  barcode : option string;
  price : Q;
  stock : Z;
  distance_km : option Q
}.
End SearchResponseItem.

Module CreateOrderRequest.
Record t := mk {
  user_name : string;
  user_phone : string;
  pharmacy_id : string;
  items : list OrderItem.t;
  delivery_method : string;
  delivery_address : option string;
  prescription_url : option string
}.

Definition validate (r : t) : bool :=
  forallb OrderItem.validate (items r)
  && one_of delivery_methods (delivery_method r).
End CreateOrderRequest.

Module OrderResponse.
Record t := mk {
  order_id : string;
  status : string;
  total_amount : Q;
  delivery_fee : Q;
  service_fee : Q
}.
End OrderResponse.

Module UpdateOrderStatusRequest.
Record t := mk { status : string }.

Definition statuses : list string :=
  ["validated"; "preparing"; "out_for_delivery"; "ready_for_pickup";
   "delivered"; "cancelled"].

Definition validate (r : t) : bool := one_of statuses (status r).
End UpdateOrderStatusRequest.

(** The validation of a request body, which runs before the handler. *)
Definition with_body {B A} (validate : B -> bool) (handler : B -> M A)
  (payload : B) : M A :=
  if validate payload then handler payload else raise RequestValidationError.

Fixpoint traverse {A B} (f : A -> option B) (l : list A) : option (list B) :=
  match l with
  | [] => Some []
  | x :: l' =>
      match f x, traverse f l' with
      | Some y, Some ys => Some (y :: ys)
      | _, _ => None
      end
  end.

Definition is_empty {A} (l : list A) : bool :=
  match l with [] => true | _ => false end.

Definition or_default {A} (d : A) (o : option A) : A :=
  match o with Some a => a | None => d end.

(** A Python [dict] built from key-value pairs: the last pair with a key
    is the one [get] returns. *)
Definition dict_get {A} (d : list (string * A)) (k : string) : option A :=
  find_one (rev d) k.

Inductive med_filter :=
| FilterAll
| FilterNameOrDci (q : string)
| FilterBarcode (barcode : string).

Section Search.

(** The store's engine for ["$regex"] with ["$options": "i"]. *)
Variable regex_i : string -> option (string -> bool).

Definition build_med_filter (q barcode : option string) : med_filter :=
  let med_filter := FilterAll in
  let med_filter :=
    match q with
    | Some (String _ _ as q) => FilterNameOrDci q
    | _ => med_filter
    end in
  let med_filter :=
    match barcode with
    | Some (String _ _ as barcode) => FilterBarcode barcode
    | _ => med_filter
    end in
  med_filter.

Definition eq_some (o : option string) (s : string) : bool :=
  match o with Some s' => String.eqb s' s | None => false end.

Definition matches_some (m : string -> bool) (o : option string) : bool :=
  match o with Some s => m s | None => false end.

(** [db["medicine"].find(med_filter)] *)
Definition find_medicine (f : med_filter) (db : Store)
  : result (collection Medicine.t) :=
  match f with
  | FilterAll => Ok (medicine db)
  | FilterBarcode b =>
      Ok (filter (fun m => eq_some (Medicine.barcode (snd m)) b) (medicine db))
  | FilterNameOrDci q =>
      match regex_i q with
      | None => Raise OperationFailure
      | Some m =>
          Ok (filter (fun d => m (Medicine.name (snd d))
                               || matches_some m (Medicine.dci (snd d)))
                     (medicine db))
      end
  end.

(** Lines 98 to 108 of [search_inventories]. *)
Definition resolve_medicines (q barcode : option string) (db : Store)
  : result (collection Medicine.t) :=
  find_medicine (build_med_filter q barcode) db.

Definition no_pharmacy : PharmacyDoc := mkPharmacyDoc None None None None.

Definition distance_to (latitude longitude : option Q) (ph : PharmacyDoc)
  : option Q :=
  match latitude, longitude, ph_latitude ph with
  | Some lat, Some lon, Some plat =>
      match ph_longitude ph with
      | Some plon =>
          Some (Py.round_R (haversine_km (Q2R lat) (Q2R lon) (Q2R plat) (Q2R plon)) 2)
      | None => None
      end
  | _, _, _ => None
  end.

Definition response_item (latitude longitude : option Q)
  (pharmacies_map : list (string * PharmacyDoc))
  (inv : bson.oid * Inventory.t) : SearchResponseItem.t :=
  let ph := or_default no_pharmacy
              (dict_get pharmacies_map (Inventory.pharmacy_id (snd inv))) in
  let distance := distance_to latitude longitude ph in
  SearchResponseItem.mk
    (bson.str (fst inv))
    (Inventory.pharmacy_id (snd inv))
    (or_default "Unknown" (ph_name ph))
    (or_default "" (ph_address ph))
    (Inventory.medicine_name (snd inv))
    (Inventory.dci (snd inv))
    (Inventory.barcode (snd inv))
    (Inventory.price (snd inv))
    (Inventory.stock (snd inv))
    distance.

Definition sort_key (x : SearchResponseItem.t) : Q * Q :=
  (match SearchResponseItem.distance_km x with
   | Some d => d
   | None => 1e9%Q
   end,
   SearchResponseItem.price x).

Definition search_inventories (q barcode : option string)
  (latitude longitude : option Q) (db : Store)
  : result (list SearchResponseItem.t) :=
  if negb (Py.truthy q) && negb (Py.truthy barcode) then
    Raise (HTTPException 400 "Provide 'q' or 'barcode'")
  else
    match resolve_medicines q barcode db with
    | Raise e => Raise e
    | Ok meds =>
        if is_empty meds then Ok []
        else
          let med_ids := map (fun m => bson.str (fst m)) meds in
          let inventories :=
            filter (fun inv =>
                      existsb (String.eqb (Inventory.medicine_id (snd inv))) med_ids
                      && (0 <? Inventory.stock (snd inv))%Z)
                   (inventory db) in
          if is_empty inventories then Ok []
          else
            let pharmacy_ids :=
              map (fun inv => Inventory.pharmacy_id (snd inv)) inventories in
            match traverse bson.ObjectId pharmacy_ids with
            | None => Raise InvalidId
            | Some oids =>
                let pharmacies_map :=
                  map (fun p => (bson.str (fst p), snd p))
                      (filter (fun p => existsb (String.eqb (fst p)) oids)
                              (pharmacy db)) in
                let resp :=
                  map (response_item latitude longitude pharmacies_map)
                      inventories in
                Ok (Py.sort Py.tuple_lt sort_key resp)
            end
    end.

End Search.

(** The loop of [create_order] over the requested items. *)
Fixpoint check_items (items : list OrderItem.t) (total : Q) (requires_rx : bool)
  : M (Q * bool) :=
  match items with
  | [] => ret (total, requires_rx)
  | item :: rest =>
      match bson.ObjectId (OrderItem.inventory_id item) with
      | None => raise InvalidId
      | Some o =>
          inv <- read (fun db => find_one (inventory db) o) ;;
          match inv with
          | None =>
              raise (HTTPException 404
                       ("Inventory not found: " ++ OrderItem.inventory_id item))
          | Some inv =>
              if (Inventory.stock inv <? OrderItem.quantity item)%Z then
                raise (HTTPException 400
                         ("Insufficient stock for " ++ Inventory.medicine_name inv))
              else
                check_items rest
                  (total + OrderItem.price item * inject_Z (OrderItem.quantity item))%Q
                  (if OrderItem.requires_prescription item then true
                   else requires_rx)
          end
      end
  end.

Definition create_order (payload : CreateOrderRequest.t) : M OrderResponse.t :=
  r <- check_items (CreateOrderRequest.items payload) 0%Q false ;;
  let total := fst r in
  let requires_rx := snd r in
  let service_fee := Py.round (Py.max (0.01 * total) 100 / 100)%Q 2 in
  let delivery_fee :=
    if String.eqb (CreateOrderRequest.delivery_method payload) "delivery"
    then 2.5%Q else 0%Q in
  let status := "pending_validation" in
  if requires_rx && negb (Py.truthy (CreateOrderRequest.prescription_url payload))
  then raise (HTTPException 400 "Prescription required for selected items")
  else
    let order_doc :=
      Order.mk
        (CreateOrderRequest.user_name payload)
        (CreateOrderRequest.user_phone payload)
        (CreateOrderRequest.pharmacy_id payload)
        (CreateOrderRequest.items payload)
        (CreateOrderRequest.delivery_method payload)
        (CreateOrderRequest.delivery_address payload)
        (CreateOrderRequest.prescription_url payload)
        status
        service_fee
        delivery_fee
        (Py.round (total + service_fee + delivery_fee)%Q 2) in
    if Order.validate order_doc then
      order_id <- create_document order_doc ;;
      ret (OrderResponse.mk order_id status (Order.total_amount order_doc)
             delivery_fee service_fee)
    else raise ValidationError.

Definition get_order (order_id : string) (db : Store) : result (string * Order.t) :=
  match bson.ObjectId order_id with
  | None => Raise InvalidId
  | Some o =>
      match find_one (order db) o with
      | None => Raise (HTTPException 404 "Order not found")
      | Some doc => Ok (bson.str o, doc)
      end
  end.

Definition update_order_status (order_id : string)
  (payload : UpdateOrderStatusRequest.t) : M (string * string) :=
  match bson.ObjectId order_id with
  | None => raise InvalidId
  | Some o =>
      fun db =>
        let (matched_count, orders) :=
          update_one (order db) o
            (Order.set_status (UpdateOrderStatusRequest.status payload)) in
        if (matched_count =? 0)%Z then
          (Raise (HTTPException 404 "Order not found"), set_order orders db)
        else
          (Ok (order_id, UpdateOrderStatusRequest.status payload),
           set_order orders db)
  end.

(** The routes, with the validation of their bodies. *)
Definition POST_api_orders : CreateOrderRequest.t -> M OrderResponse.t :=
  with_body CreateOrderRequest.validate create_order.

Definition PUT_api_orders (order_id : string)
  : UpdateOrderStatusRequest.t -> M (string * string) :=
  with_body UpdateOrderStatusRequest.validate (update_order_status order_id).

(* ================================================================= *)
(** ** Definitions the properties are stated with *)

(** The sum over the items of price times quantity, in request order. *)
Definition items_total (items : list OrderItem.t) : Q :=
  fold_left
    (fun total item =>
       (total + OrderItem.price item * inject_Z (OrderItem.quantity item))%Q)
    items 0%Q.

Definition needs_prescription (items : list OrderItem.t) : bool :=
  existsb OrderItem.requires_prescription items.

(** Why one item is refused, if it is. *)
Definition item_rejection (db : Store) (item : OrderItem.t) : option exn :=
  match bson.ObjectId (OrderItem.inventory_id item) with
  | None => Some InvalidId
  | Some o =>
      match find_one (inventory db) o with
      | None =>
          Some (HTTPException 404
                  ("Inventory not found: " ++ OrderItem.inventory_id item))
      | Some inv =>
          if (Inventory.stock inv <? OrderItem.quantity item)%Z then
            Some (HTTPException 400
                    ("Insufficient stock for " ++ Inventory.medicine_name inv))
          else None
      end
  end.

(** An item passes: its inventory exists and holds the requested quantity. *)
Definition item_available (db : Store) (item : OrderItem.t) : bool :=
  match bson.ObjectId (OrderItem.inventory_id item) with
  | None => false
  | Some o =>
      match find_one (inventory db) o with
      | None => false
      | Some inv => negb (Inventory.stock inv <? OrderItem.quantity item)%Z
      end
  end.

(** The refusal of the first item, in request order, that is refused. *)
Fixpoint first_rejection (db : Store) (items : list OrderItem.t) : option exn :=
  match items with
  | [] => None
  | item :: rest =>
      match item_rejection db item with
      | Some e => Some e
      | None => first_rejection db rest
      end
  end.

(** The refusal of an order: that of its first refused item; when every
    item passes, the missing prescription. *)
Definition order_rejection (db : Store) (payload : CreateOrderRequest.t)
  : option exn :=
  match first_rejection db (CreateOrderRequest.items payload) with
  | Some e => Some e
  | None =>
      if needs_prescription (CreateOrderRequest.items payload)
         && negb (Py.truthy (CreateOrderRequest.prescription_url payload))
      then Some (HTTPException 400 "Prescription required for selected items")
      else None
  end.

(** The order document [create_order] builds for a request. *)
Definition order_of_request (payload : CreateOrderRequest.t) : Order.t :=
  let total := items_total (CreateOrderRequest.items payload) in
  let service_fee := Py.round (Py.max (0.01 * total) 100 / 100)%Q 2 in
  let delivery_fee :=
    if String.eqb (CreateOrderRequest.delivery_method payload) "delivery"
    then 2.5%Q else 0%Q in
  Order.mk
    (CreateOrderRequest.user_name payload)
    (CreateOrderRequest.user_phone payload)
    (CreateOrderRequest.pharmacy_id payload)
    (CreateOrderRequest.items payload)
    (CreateOrderRequest.delivery_method payload)
    (CreateOrderRequest.delivery_address payload)
    (CreateOrderRequest.prescription_url payload)
    "pending_validation"
    service_fee
    delivery_fee
    (Py.round (total + service_fee + delivery_fee)%Q 2).

(** The status of the order with a given identifier. *)
Definition status_of (db : Store) (o : bson.oid) : option string :=
  option_map Order.status (find_one (order db) o).

(** One successful [PUT /api/orders/{id}] takes an order from status [s]
    to status [t]. *)
Inductive put_step : string -> string -> Prop :=
| put_step_intro (db db' : Store) (order_id : string) (o : bson.oid)
    (payload : UpdateOrderStatusRequest.t) (r : string * string) (s t : string) :
    bson.ObjectId order_id = Some o ->
    status_of db o = Some s ->
    PUT_api_orders order_id payload db = (Ok r, db') ->
    status_of db' o = Some t ->
    put_step s t.

(** Reachable by one or more such requests. *)
Definition reachable : string -> string -> Prop := clos_trans string put_step.

(** The order of the search results: by first component of the key, and
    by price where the first components are equal. *)
Definition key_le (k1 k2 : Q * Q) : Prop :=
  (fst k1 < fst k2 \/ (fst k1 == fst k2 /\ snd k1 <= snd k2))%Q.

(** The store after [create_document] has inserted an order, and the
    response [create_order] then returns. *)
Definition store_with_order (db : Store) (doc : Order.t) : Store :=
  mkStore (medicine db) (inventory db) (pharmacy db)
    (order db ++ [(bson.generate (counter db), doc)])%list
    (N.succ (counter db)).

Definition response_of_order (order_id : string) (doc : Order.t)
  : OrderResponse.t :=
  OrderResponse.mk order_id "pending_validation" (Order.total_amount doc)
    (Order.delivery_fee doc) (Order.service_fee doc).

(* ================================================================= *)
(** ** Sample data for the closed examples *)

Module Sample.

Definition inv_a : bson.oid := "aaaaaaaaaaaaaaaaaaaaaaaa".
Definition inv_b : bson.oid := "bbbbbbbbbbbbbbbbbbbbbbbb".
Definition inv_c : bson.oid := "cccccccccccccccccccccccc".
Definition med_1 : bson.oid := "111111111111111111111111".
Definition pharm_1 : bson.oid := "999999999999999999999999".

Definition doliprane : Medicine.t :=
  Medicine.mk "Doliprane" None (Some "3400930000001") None false.

Definition inv_d : bson.oid := "dddddddddddddddddddddddd".

(** Five boxes in stock at 650 under [inv_a], none left under [inv_b],
    three at 450 under [inv_d]; nothing is stored under [inv_c]. *)
Definition store : Store :=
  mkStore
    [(med_1, doliprane)]
    [(inv_a, Inventory.mk pharm_1 med_1 "Doliprane" None (Some "3400930000001") 650 5);
     (inv_b, Inventory.mk pharm_1 med_1 "Doliprane" None (Some "3400930000001") 450 0);
     (inv_d, Inventory.mk pharm_1 med_1 "Doliprane" None (Some "3400930000001") 450 3)]
    [(pharm_1, mkPharmacyDoc (Some "Pharmacie du Centre") (Some "Ouagadougou") None None)]
    []
    0.

(** The same medicine at two pharmacies: cheap at [pharm_2], whose
    document has no coordinates, and dear at [pharm_1], which stands at
    latitude 0 and longitude 0. *)
Definition pharm_2 : bson.oid := "888888888888888888888888".

Definition store_geo : Store :=
  mkStore
    [(med_1, doliprane)]
    [(inv_a, Inventory.mk pharm_2 med_1 "Doliprane" None None 100 5);
     (inv_d, Inventory.mk pharm_1 med_1 "Doliprane" None None 900 3)]
    [(pharm_1, mkPharmacyDoc (Some "Pharmacie du Centre") (Some "Ouagadougou")
                 (Some 0) (Some 0));
     (pharm_2, mkPharmacyDoc (Some "Pharmacie Wend Kuuni") (Some "Koudougou")
                 None None)]
    []
    0.

(** A requested item; the request quotes a price of 500. *)
Definition item (inventory_id : string) (quantity : Z) (rx : bool) : OrderItem.t :=
  OrderItem.mk inventory_id "Doliprane" 500 quantity rx.

Definition request (items : list OrderItem.t) : CreateOrderRequest.t :=
  CreateOrderRequest.mk "Awa" "70000000" pharm_1 items "delivery" None None.

(** Two boxes at 500: items totalling 1000. *)
Definition request_1000 : CreateOrderRequest.t := request [item inv_a 2 false].

End Sample.

(* ================================================================= *)
(** ** The other routes of [main.py] *)

(** A collection of the store, as the two operations of the database
    layer need it. *)
Record Collection (A : Type) := mkCollection {
  coll_get : Store -> collection A;
  coll_set : collection A -> Store -> Store
}.
Arguments coll_get {A} c db.
Arguments coll_set {A} c docs db.

Definition set_medicine (c : collection Medicine.t) (db : Store) : Store :=
  mkStore c (inventory db) (pharmacy db) (order db) (counter db).

Definition set_inventory (c : collection Inventory.t) (db : Store) : Store :=
  mkStore (medicine db) c (pharmacy db) (order db) (counter db).

Definition set_counter (n : N) (db : Store) : Store :=
  mkStore (medicine db) (inventory db) (pharmacy db) (order db) n.

Definition medicine_collection : Collection Medicine.t :=
  mkCollection Medicine.t medicine set_medicine.

Definition inventory_collection : Collection Inventory.t :=
  mkCollection Inventory.t inventory set_inventory.

Definition order_collection : Collection Order.t :=
  mkCollection Order.t order set_order.

(** Modelled from the spec: [database.py] is not part of the sources;
    [create_document(collection_name, validated_entity)] "inserts the
    entity's fields as a new document in the named collection; returns
    the new document's identifier as a string".  This is [create_document]
    above for any collection; on ["order"] the two agree
    ([create_document_in_order]). *)
Definition create_document_in {A} (c : Collection A) (data : A) : M string :=
  fun db =>
    let o := bson.generate (counter db) in
    (Ok (bson.str o),
     set_counter (N.succ (counter db))
       (coll_set c (coll_get c db ++ [(o, data)])%list db)).

(** [POST /api/medicines] and [POST /api/inventories]; the handlers return
    [{"id": ...}]. *)
Definition add_medicine (medicine : Medicine.t) : M string :=
  med_id <- create_document_in medicine_collection medicine ;;
  ret med_id.

Definition add_inventory (inventory : Inventory.t) : M string :=
  create_document_in inventory_collection inventory.

(** [Medicine] declares no constraint on its fields. *)
Definition POST_api_medicines : Medicine.t -> M string :=
  with_body (fun _ => true) add_medicine.

Definition POST_api_inventories : Inventory.t -> M string :=
  with_body Inventory.validate add_inventory.

(** [GET /api/orders].  The filter has a key for each parameter that is
    truthy.  The documents come in the order the store gives to
    [.sort("created_at", -1)]; [created_at] is not a field of [Order], so
    the sort of the store is a parameter here. *)
Section ListOrders.

Variable sort_created_at_desc : collection Order.t -> collection Order.t.

Definition order_filter (user_phone pharmacy_id : option string)
  : list (string * string) :=
  let filter_q := [] in
  let filter_q :=
    match user_phone with
    | Some (String _ _ as user_phone) => ("user_phone", user_phone) :: filter_q
    | _ => filter_q
    end in
  let filter_q :=
    match pharmacy_id with
    | Some (String _ _ as pharmacy_id) => ("pharmacy_id", pharmacy_id) :: filter_q
    | _ => filter_q
    end in
  filter_q.

(** The value of a field of an order document that a filter can name. *)
Definition order_field (key : string) (doc : Order.t) : option string :=
  if String.eqb key "user_phone" then Some (Order.user_phone doc)
  else if String.eqb key "pharmacy_id" then Some (Order.pharmacy_id doc)
  else None.

(** A document matches a filter when every key of the filter has the
    given value in the document. *)
Definition matches_filter (filter_q : list (string * string)) (doc : Order.t)
  : bool :=
  forallb (fun kv => eq_some (order_field (fst kv) doc) (snd kv)) filter_q.

Definition list_orders (user_phone pharmacy_id : option string) (db : Store)
  : list (string * Order.t) :=
  let filter_q := order_filter user_phone pharmacy_id in
  let data :=
    sort_created_at_desc
      (filter (fun d => matches_filter filter_q (snd d)) (order db)) in
  map (fun d => (bson.str (fst d), snd d)) data.

End ListOrders.

(* ================================================================= *)
(** ** More definitions the properties are stated with *)

(** The inventory documents a search keeps for the medicines it resolved:
    those that reference one of them and have stock. *)
Definition stocked_inventories (meds : collection Medicine.t) (db : Store)
  : collection Inventory.t :=
  filter (fun inv =>
            existsb (String.eqb (Inventory.medicine_id (snd inv)))
                    (map (fun m => bson.str (fst m)) meds)
            && (0 <? Inventory.stock (snd inv))%Z)
         (inventory db).

(** The request for one item, without prescription. *)
Definition single_item_request (user_name user_phone pharmacy_id : string)
  (delivery_method : string) (item : OrderItem.t) : CreateOrderRequest.t :=
  CreateOrderRequest.mk user_name user_phone pharmacy_id [item]
    delivery_method None None.

(* ================================================================= *)
(** ** More sample data *)

Module SampleMore.

(** An inventory that references a pharmacy the store does not hold. *)
Definition store_orphan : Store :=
  mkStore
    [(Sample.med_1, Sample.doliprane)]
    [(Sample.inv_a,
      Inventory.mk "777777777777777777777777" Sample.med_1 "Doliprane"
        None None 100 5)]
    []
    []
    0.


Definition paracetamol : Medicine.t :=
  Medicine.mk "Efferalgan" (Some "paracetamol") (Some "3400930000002") None false.

Definition order_of (user_phone pharmacy_id : string) : Order.t :=
  Order.mk "Awa" user_phone pharmacy_id [] "delivery" None None
    "pending_validation" 1 2.5 3.5.

(** Three orders of two customers at two pharmacies. *)
Definition store_orders : Store :=
  mkStore [] [] []
    [("000000000000000000000000", order_of "70000000" Sample.pharm_1);
     ("000000000000000000000001", order_of "71111111" Sample.pharm_1);
     ("000000000000000000000002", order_of "70000000" Sample.pharm_2)]
    3.

End SampleMore.

(* ================================================================= *)
(** * Properties *)

(* ----------------------------------------------------------------- *)
(** ** The distance utility *)

Section HaversineFacts.
Local Open Scope R_scope.

Lemma sin_sqr_neg (x : R) : sin (- x) ^ 2 = sin x ^ 2.
Proof. rewrite sin_neg. ring. Qed.

Lemma haversine_same (lat lon : R) : haversine_km lat lon lat lon = 0.
Proof.
  unfold haversine_km.
  replace (radians lat - radians lat) with 0 by ring.
  replace (radians lon - radians lon) with 0 by ring.
  replace (0 / 2) with 0 by field.
  rewrite sin_0.
  replace (0 ^ 2 + cos (radians lat) * cos (radians lat) * 0 ^ 2) with 0 by ring.
  rewrite sqrt_0, asin_0. ring.
Qed.

Lemma haversine_sym (lat1 lon1 lat2 lon2 : R) :
  haversine_km lat1 lon1 lat2 lon2 = haversine_km lat2 lon2 lat1 lon1.
Proof.
  unfold haversine_km.
  replace ((radians lat1 - radians lat2) / 2)
    with (- ((radians lat2 - radians lat1) / 2)) by field.
  replace ((radians lon1 - radians lon2) / 2)
    with (- ((radians lon2 - radians lon1) / 2)) by field.
  rewrite !sin_sqr_neg.
  rewrite (Rmult_comm (cos (radians lat2)) (cos (radians lat1))).
  reflexivity.
Qed.

(** The antipode of [(lat, lon)] is [(- lat, lon + 180)]. *)
Lemma haversine_antipodal (lat lon : R) :
  haversine_km lat lon (- lat) (lon + 180) = PI * 6371.
Proof.
  unfold haversine_km, radians.
  replace (((- lat) * (PI / 180) - lat * (PI / 180)) / 2)
    with (- (lat * (PI / 180))) by field.
  replace (((lon + 180) * (PI / 180) - lon * (PI / 180)) / 2)
    with (PI / 2) by field.
  rewrite sin_sqr_neg, sin_PI2.
  replace (- lat * (PI / 180)) with (- (lat * (PI / 180))) by ring.
  rewrite cos_neg.
  replace (sin (lat * (PI / 180)) ^ 2
           + cos (lat * (PI / 180)) * cos (lat * (PI / 180)) * 1 ^ 2)
    with ((sin (lat * (PI / 180)))² + (cos (lat * (PI / 180)))²)
    by (unfold Rsqr; ring).
  rewrite sin2_cos2, sqrt_1, asin_1. field.
Qed.

(** Five digits of pi, from the series of [2 atan (1/3) + atan (1/7)]. *)
Lemma PI_5_digits : 3.14159 < PI < 3.1416.
Proof.
  destruct (PI_2_3_7_ineq 3) as [Hlo Hhi].
  unfold PI_2_3_7_tg, tg_alt, Ratan_seq in Hlo, Hhi.
  simpl in Hlo, Hhi.
  split; lra.
Qed.

(** No distance exceeds half the circumference. *)
Lemma haversine_upper (lat1 lon1 lat2 lon2 : R) :
  haversine_km lat1 lon1 lat2 lon2 <= PI * 6371.
Proof.
  unfold haversine_km. cbv zeta.
  match goal with |- 2 * asin ?x * _ <= _ => pose proof (asin_bound x) end.
  lra.
Qed.

(** C7.  [haversine_km] is a function of its four arguments with no other
    input; the distance from a point to itself is 0, in particular
    [haversine_km 0 0 0 0 = 0]; the distance is symmetric in its two
    points; and between a point and its antipode it is [PI * 6371], which
    lies within 0.1 km of 20015.1. *)
Theorem haversine_km_properties :
  haversine_km 0 0 0 0 = 0
  /\ (forall lat lon, haversine_km lat lon lat lon = 0)
  /\ (forall lat1 lon1 lat2 lon2,
        haversine_km lat1 lon1 lat2 lon2 = haversine_km lat2 lon2 lat1 lon1)
  /\ (forall lat lon,
        haversine_km lat lon (- lat) (lon + 180) = PI * 6371
        /\ Rabs (haversine_km lat lon (- lat) (lon + 180) - 20015.1) < 0.1).
Proof.
  split; [apply haversine_same|].
  split; [apply haversine_same|].
  split; [apply haversine_sym|].
  intros lat lon. rewrite haversine_antipodal. split; [reflexivity|].
  pose proof PI_5_digits. apply Rabs_def1; lra.
Qed.

End HaversineFacts.

(* ----------------------------------------------------------------- *)
(** ** The definitions on small inputs *)

Example round_ties_to_even :
  (Py.round 0.125 2 == 0.12 /\ Py.round 0.135 2 == 0.14
   /\ Py.round (-0.125) 2 == -0.12 /\ Py.round 2.5 0 == 2
   /\ Py.round 1003.5 2 == 1003.5)%Q.
Proof. repeat split. Qed.

Example max_of_equal_is_first :
  Py.max (200 # 2) 100 = (200 # 2)%Q /\ Py.max 10 100 = 100%Q
  /\ Py.max 250 100 = 250%Q.
Proof. repeat split. Qed.

Example ObjectId_examples :
  bson.ObjectId "ABCDEFabcdef012345678901" = Some "abcdefabcdef012345678901"
  /\ bson.ObjectId "abc" = None
  /\ bson.ObjectId "zzzzzzzzzzzzzzzzzzzzzzzz" = None
  /\ bson.generate 255 = "0000000000000000000000ff".
Proof. repeat split. Qed.

Example regex_examples :
  option_map (fun m => m "Doliprane 500") (Regex.compile true "PRANE") = Some true
  /\ option_map (fun m => m "Doliprane 500") (Regex.compile false "PRANE") = Some false
  /\ option_map (fun m => m "Doliprane 500") (Regex.compile true "d.l") = Some true
  /\ option_map (fun m => m "Doliprane 500") (Regex.compile true "d\.l") = Some false
  /\ option_map (fun m => m "") (Regex.compile true "") = Some true
  /\ Regex.substring_ci "PRANE" "Doliprane 500" = true
  /\ Regex.substring_ci "d.l" "Doliprane 500" = false.
Proof. repeat split. Qed.

Example sort_is_stable :
  Py.sort Py.tuple_lt (fun x : Q * string => (fst x, 0%Q))
    [(3%Q, "a"); (1%Q, "b"); (3%Q, "c"); (1%Q, "d"); (2%Q, "e")]
  = [(1%Q, "b"); (1%Q, "d"); (2%Q, "e"); (3%Q, "a"); (3%Q, "c")].
Proof. reflexivity. Qed.

Example update_one_examples :
  update_one [("a", 1%Z); ("b", 2%Z); ("b", 3%Z)] "b" Z.succ
  = (1%Z, [("a", 1%Z); ("b", 3%Z); ("b", 3%Z)])
  /\ update_one [("a", 1%Z)] "c" Z.succ = (0%Z, [("a", 1%Z)]).
Proof. repeat split. Qed.

(* ----------------------------------------------------------------- *)
(** ** Order placement *)

Lemma check_items_eq (db : Store) (items : list OrderItem.t) :
  forall total requires_rx,
    check_items items total requires_rx db =
    match first_rejection db items with
    | Some e => (Raise e, db)
    | None =>
        (Ok (fold_left
               (fun total item =>
                  (total + OrderItem.price item
                           * inject_Z (OrderItem.quantity item))%Q)
               items total,
             requires_rx || needs_prescription items),
         db)
    end.
Proof.
  induction items as [|item rest IH]; intros total requires_rx.
  - simpl. unfold ret. rewrite orb_false_r. reflexivity.
  - cbn [check_items first_rejection]. unfold item_rejection.
    destruct (bson.ObjectId (OrderItem.inventory_id item)) as [o|];
      [|reflexivity].
    unfold bind at 1. unfold read.
    destruct (find_one (inventory db) o) as [inv|]; [|reflexivity].
    destruct (Inventory.stock inv <? OrderItem.quantity item)%Z; [reflexivity|].
    rewrite IH. destruct (first_rejection db rest); [reflexivity|].
    cbn [fold_left needs_prescription existsb].
    do 3 f_equal.
    destruct (OrderItem.requires_prescription item), requires_rx; reflexivity.
Qed.

Lemma create_order_eq (payload : CreateOrderRequest.t) (db : Store) :
  create_order payload db =
  match order_rejection db payload with
  | Some e => (Raise e, db)
  | None =>
      if Order.validate (order_of_request payload) then
        (Ok (response_of_order (bson.str (bson.generate (counter db)))
               (order_of_request payload)),
         store_with_order db (order_of_request payload))
      else (Raise ValidationError, db)
  end.
Proof.
  unfold create_order, order_rejection.
  unfold bind at 1. rewrite check_items_eq.
  destruct (first_rejection db (CreateOrderRequest.items payload));
    [reflexivity|].
  cbn [fst snd orb].
  fold (items_total (CreateOrderRequest.items payload)).
  destruct (needs_prescription (CreateOrderRequest.items payload)
            && negb (Py.truthy (CreateOrderRequest.prescription_url payload)));
    [reflexivity|].
  fold (order_of_request payload).
  destruct (Order.validate (order_of_request payload)); reflexivity.
Qed.

Lemma validate_order_of_request (payload : CreateOrderRequest.t) :
  CreateOrderRequest.validate payload = true ->
  Order.validate (order_of_request payload) = true.
Proof.
  unfold CreateOrderRequest.validate, Order.validate. cbn.
  intros H. rewrite H. reflexivity.
Qed.

Lemma POST_api_orders_eq (payload : CreateOrderRequest.t) (db : Store) :
  POST_api_orders payload db =
  if CreateOrderRequest.validate payload then
    match order_rejection db payload with
    | Some e => (Raise e, db)
    | None =>
        (Ok (response_of_order (bson.str (bson.generate (counter db)))
               (order_of_request payload)),
         store_with_order db (order_of_request payload))
    end
  else (Raise RequestValidationError, db).
Proof.
  unfold POST_api_orders, with_body.
  destruct (CreateOrderRequest.validate payload) eqn:Hv; [|reflexivity].
  rewrite create_order_eq, (validate_order_of_request _ Hv). reflexivity.
Qed.

(** What a successful placement returns and leaves in the store. *)
Lemma POST_api_orders_ok (payload : CreateOrderRequest.t) (db db' : Store)
  (resp : OrderResponse.t) :
  POST_api_orders payload db = (Ok resp, db') ->
  CreateOrderRequest.validate payload = true
  /\ order_rejection db payload = None
  /\ resp = response_of_order (bson.str (bson.generate (counter db)))
              (order_of_request payload)
  /\ db' = store_with_order db (order_of_request payload).
Proof.
  rewrite POST_api_orders_eq.
  destruct (CreateOrderRequest.validate payload); [|discriminate].
  destruct (order_rejection db payload); [discriminate|].
  intros H. injection H as <- <-. repeat split.
Qed.

(** *** Rounding and the service fee *)









(** C6.  When [POST /api/orders] ends with an exception, a 404 or a 400
    included, the store is the one it started with: no document was
    inserted, in any collection. *)
Theorem create_order_atomic (payload : CreateOrderRequest.t) (db db' : Store)
  (e : exn) :
  POST_api_orders payload db = (Raise e, db') -> db' = db.
Proof.
  rewrite POST_api_orders_eq.
  destruct (CreateOrderRequest.validate payload);
    [destruct (order_rejection db payload)|]; intros H;
    first [discriminate | injection H as _ <-; reflexivity].
Qed.


Lemma create_order_atomic_witness :
  let payload := Sample.request [Sample.item Sample.inv_c 1 false] in
  exists db',
    POST_api_orders payload Sample.store
    = (Raise (HTTPException 404 "Inventory not found: cccccccccccccccccccccccc"), db')
    /\ db' = Sample.store.
Proof.
  intros payload.
  destruct (POST_api_orders payload Sample.store) as [r db'] eqn:H.
  assert (Hr : r = Raise (HTTPException 404 "Inventory not found: cccccccccccccccccccccccc")).
  { vm_compute in H. injection H as <- _. reflexivity. }
  subst r. exists db'. split; [reflexivity|].
  exact (create_order_atomic _ _ _ _ H).
Defined.

(** *** Which requests are refused, and why *)

Lemma item_rejection_available (db : Store) (item : OrderItem.t) :
  item_available db item = true -> item_rejection db item = None.
Proof.
  unfold item_available, item_rejection.
  destruct (bson.ObjectId (OrderItem.inventory_id item)) as [o|]; [|discriminate].
  destruct (find_one (inventory db) o) as [inv|]; [|discriminate].
  destruct (Inventory.stock inv <? OrderItem.quantity item)%Z;
    [discriminate|reflexivity].
Qed.

Lemma first_rejection_skip (db : Store) (pre rest : list OrderItem.t) :
  forallb (item_available db) pre = true ->
  first_rejection db (pre ++ rest) = first_rejection db rest.
Proof.
  induction pre as [|item pre IH]; intros H; [reflexivity|].
  cbn in H. apply andb_true_iff in H as [Hi Hp].
  cbn. rewrite (item_rejection_available _ _ Hi). apply IH, Hp.
Qed.

Lemma first_rejection_none (db : Store) (items : list OrderItem.t) :
  forallb (item_available db) items = true -> first_rejection db items = None.
Proof.
  intros H. rewrite <- (app_nil_r items). rewrite first_rejection_skip; auto.
Qed.

(** An item whose inventory does not exist although an earlier item is
    short of stock: the request ends with the 400 of the earlier item. *)
Lemma create_order_missing_inventory_not_404 :
  let payload :=
    Sample.request [Sample.item Sample.inv_b 1 false;
                    Sample.item Sample.inv_c 1 false] in
  CreateOrderRequest.validate payload = true
  /\ (exists item o,
        In item (CreateOrderRequest.items payload)
        /\ bson.ObjectId (OrderItem.inventory_id item) = Some o
        /\ find_one (inventory Sample.store) o = None)
  /\ POST_api_orders payload Sample.store
     = (Raise (HTTPException 400 "Insufficient stock for Doliprane"),
        Sample.store).
Proof.
  intros payload. split; [reflexivity|]. split.
  - exists (Sample.item Sample.inv_c 1 false), Sample.inv_c.
    split; [right; left; reflexivity|]. split; reflexivity.
  - reflexivity.
Qed.

(** C2, amended.  [POST /api/orders] takes the items in request order and
    ends at the first one that does not pass: with 404 when its
    identifier matches no inventory document, with 400 "Insufficient
    stock for <name>" when its quantity exceeds the stock of its
    inventory.  When every item passes, it ends with 400 "Prescription
    required for selected items" if at least one item requires a
    prescription and [prescription_url] is absent or empty, whatever the
    other items require; otherwise the order is placed. *)
Theorem create_order_outcome (payload : CreateOrderRequest.t) (db : Store) :
  CreateOrderRequest.validate payload = true ->
  (forall pre item rest o,
      CreateOrderRequest.items payload = (pre ++ item :: rest)%list ->
      forallb (item_available db) pre = true ->
      bson.ObjectId (OrderItem.inventory_id item) = Some o ->
      (find_one (inventory db) o = None ->
       POST_api_orders payload db
       = (Raise (HTTPException 404
                   ("Inventory not found: " ++ OrderItem.inventory_id item)),
          db))
      /\ (forall inv,
             find_one (inventory db) o = Some inv ->
             (Inventory.stock inv < OrderItem.quantity item)%Z ->
             POST_api_orders payload db
             = (Raise (HTTPException 400
                         ("Insufficient stock for " ++ Inventory.medicine_name inv)),
                db)))
  /\ (forallb (item_available db) (CreateOrderRequest.items payload) = true ->
      (needs_prescription (CreateOrderRequest.items payload) = true ->
       Py.truthy (CreateOrderRequest.prescription_url payload) = false ->
       POST_api_orders payload db
       = (Raise (HTTPException 400 "Prescription required for selected items"),
          db))
      /\ (needs_prescription (CreateOrderRequest.items payload) = false
          \/ Py.truthy (CreateOrderRequest.prescription_url payload) = true ->
          exists resp db',
            POST_api_orders payload db = (Ok resp, db')
            /\ order db'
               = (order db
                  ++ [(OrderResponse.order_id resp, order_of_request payload)])%list)).
Proof.
  intros Hv. rewrite POST_api_orders_eq, Hv. unfold order_rejection. split.
  - intros pre item rest o Hitems Hpre Ho.
    rewrite Hitems, (first_rejection_skip _ _ _ Hpre).
    cbn [first_rejection]. unfold item_rejection. rewrite Ho. split.
    + intros ->. reflexivity.
    + intros inv -> Hlt. apply Z.ltb_lt in Hlt. rewrite Hlt. reflexivity.
  - intros Hall. rewrite (first_rejection_none _ _ Hall). split.
    + intros -> ->. reflexivity.
    + intros Hor.
      assert (Hc : needs_prescription (CreateOrderRequest.items payload)
                   && negb (Py.truthy (CreateOrderRequest.prescription_url payload))
                   = false).
      { destruct Hor as [-> | ->]; [reflexivity|apply andb_false_r]. }
      rewrite Hc. eexists. eexists. split; reflexivity.
Qed.

Lemma create_order_outcome_witness :
  let payload :=
    Sample.request [Sample.item Sample.inv_a 2 false;
                    Sample.item Sample.inv_c 1 false] in
  CreateOrderRequest.validate payload = true
  /\ POST_api_orders payload Sample.store
     = (Raise (HTTPException 404 "Inventory not found: cccccccccccccccccccccccc"),
        Sample.store).
Proof.
  intros payload.
  assert (Hv : CreateOrderRequest.validate payload = true) by reflexivity.
  split; [exact Hv|].
  destruct (create_order_outcome payload Sample.store Hv) as [Hfirst _].
  destruct (Hfirst [Sample.item Sample.inv_a 2 false]
                   (Sample.item Sample.inv_c 1 false) [] Sample.inv_c
                   eq_refl eq_refl eq_refl) as [H404 _].
  exact (H404 eq_refl).
Defined.

(** *** Orders without items *)

(** A request without items passes both validations and is placed. *)
Lemma empty_items_accepted :
  let payload := Sample.request [] in
  CreateOrderRequest.items payload = []
  /\ CreateOrderRequest.validate payload = true
  /\ Order.validate (order_of_request payload) = true
  /\ exists resp db' doc,
       POST_api_orders payload Sample.store = (Ok resp, db')
       /\ order db' = [(OrderResponse.order_id resp, doc)]
       /\ Order.items doc = [].
Proof.
  intros payload. repeat (split; [reflexivity|]).
  eexists. eexists. eexists.
  split; [vm_compute; reflexivity|]. split; reflexivity.
Qed.

(** C8, amended.  Neither the request body of [POST /api/orders] nor the
    [Order] entity bounds the length of [items]: a request with no item
    and one of the two delivery methods passes the validation of both and
    is placed; the persisted order has no item, a total of 0 and a service
    fee of 1.00. *)
Theorem empty_order_is_placed (payload : CreateOrderRequest.t) (db : Store) :
  CreateOrderRequest.items payload = [] ->
  one_of delivery_methods (CreateOrderRequest.delivery_method payload) = true ->
  CreateOrderRequest.validate payload = true
  /\ Order.validate (order_of_request payload) = true
  /\ exists resp db',
       POST_api_orders payload db = (Ok resp, db')
       /\ order db'
          = (order db ++ [(OrderResponse.order_id resp, order_of_request payload)])%list
       /\ Order.items (order_of_request payload) = []
       /\ items_total (Order.items (order_of_request payload)) = 0%Q
       /\ (Order.service_fee (order_of_request payload) == 1)%Q.
Proof.
  intros Hitems Hm.
  assert (Hv : CreateOrderRequest.validate payload = true).
  { unfold CreateOrderRequest.validate. rewrite Hitems, Hm. reflexivity. }
  split; [exact Hv|]. split; [apply validate_order_of_request, Hv|].
  rewrite POST_api_orders_eq, Hv. unfold order_rejection.
  rewrite Hitems. cbn [first_rejection needs_prescription existsb andb].
  eexists. eexists. split; [reflexivity|]. split; [reflexivity|].
  cbn [order_of_request Order.items Order.service_fee].
  rewrite Hitems. split; [reflexivity|]. split; reflexivity.
Qed.

Lemma empty_order_is_placed_witness :
  CreateOrderRequest.items (Sample.request []) = []
  /\ exists resp db',
       POST_api_orders (Sample.request []) Sample.store = (Ok resp, db')
       /\ order db'
          = [(OrderResponse.order_id resp, order_of_request (Sample.request []))].
Proof.
  split; [reflexivity|].
  destruct (empty_order_is_placed (Sample.request []) Sample.store eq_refl eq_refl)
    as (_ & _ & resp & db' & H & Hdb & _).
  exists resp, db'. split; [exact H|exact Hdb].
Defined.

(* ----------------------------------------------------------------- *)
(** ** The status of an order *)

Lemma update_one_spec {A} (c : collection A) (o : bson.oid) (f : A -> A) :
  match find_one c o with
  | Some d =>
      fst (update_one c o f) = 1%Z
      /\ find_one (snd (update_one c o f)) o = Some (f d)
  | None => update_one c o f = (0%Z, c)
  end.
Proof.
  induction c as [|[k d] c IH]; [reflexivity|].
  cbn [find_one update_one].
  destruct (String.eqb k o) eqn:Hk.
  - cbn. rewrite Hk. split; reflexivity.
  - destruct (find_one c o) as [d'|].
    + destruct (update_one c o f) as [n c'] eqn:Hu. cbn in *.
      rewrite Hk. exact IH.
    + rewrite IH. reflexivity.
Qed.

Lemma one_of_In (allowed : list string) (s : string) :
  one_of allowed s = true <-> In s allowed.
Proof.
  unfold one_of. rewrite existsb_exists. split.
  - intros (x & Hin & Heq). apply String.eqb_eq in Heq. subst. exact Hin.
  - intros Hin. exists s. split; [exact Hin|apply String.eqb_refl].
Qed.

(** A successful update leaves the order in the requested status, which
    is one of the six the request body admits. *)
Lemma PUT_api_orders_ok (order_id : string) (o : bson.oid)
  (payload : UpdateOrderStatusRequest.t) (db db' : Store) (r : string * string) :
  bson.ObjectId order_id = Some o ->
  PUT_api_orders order_id payload db = (Ok r, db') ->
  In (UpdateOrderStatusRequest.status payload) UpdateOrderStatusRequest.statuses
  /\ status_of db' o = Some (UpdateOrderStatusRequest.status payload).
Proof.
  intros Ho. unfold PUT_api_orders, with_body.
  destruct (UpdateOrderStatusRequest.validate payload) eqn:Hv; [|discriminate].
  intros H. apply one_of_In in Hv. split; [exact Hv|].
  unfold update_order_status in H. rewrite Ho in H.
  pose proof (update_one_spec (order db) o
                (Order.set_status (UpdateOrderStatusRequest.status payload))) as Hu.
  destruct (update_one (order db) o
              (Order.set_status (UpdateOrderStatusRequest.status payload)))
    as [n c'] eqn:Hupd.
  destruct (find_one (order db) o) as [d|].
  - cbn in Hu. destruct Hu as [-> Hfind]. cbn in H. injection H as _ <-.
    unfold status_of. cbn. rewrite Hfind. reflexivity.
  - injection Hu as -> _. cbn in H. discriminate.
Qed.

Lemma put_step_target (s t : string) :
  put_step s t -> In t UpdateOrderStatusRequest.statuses.
Proof.
  intros [db db' order_id o payload r s' t' Ho _ Hput Ht].
  destruct (PUT_api_orders_ok _ _ _ _ _ _ Ho Hput) as [Hin Hst].
  rewrite Hst in Ht. injection Ht as <-. exact Hin.
Qed.

Lemma reachable_target (s t : string) :
  reachable s t -> In t UpdateOrderStatusRequest.statuses.
Proof.
  induction 1 as [s t Hstep | s u t _ _ _ IH].
  - exact (put_step_target _ _ Hstep).
  - exact IH.
Qed.

Lemma pending_validation_not_a_target :
  ~ In "pending_validation" UpdateOrderStatusRequest.statuses.
Proof. cbn. intros H. repeat destruct H as [H|H]; try discriminate. exact H. Qed.

(** Two of the seven states, the second not reachable from the first. *)
Lemma pending_validation_unreachable :
  In "validated" order_statuses
  /\ In "pending_validation" order_statuses
  /\ ~ reachable "validated" "pending_validation".
Proof.
  split; [cbn; tauto|]. split; [cbn; tauto|].
  intros H. exact (pending_validation_not_a_target (reachable_target _ _ H)).
Qed.

(** An update of an existing order to one of the six statuses succeeds,
    whatever the current status. *)
Lemma PUT_api_orders_accepts (db : Store) (order_id : string) (o : bson.oid)
  (s t : string) :
  bson.ObjectId order_id = Some o ->
  status_of db o = Some s ->
  In t UpdateOrderStatusRequest.statuses ->
  exists db',
    PUT_api_orders order_id (UpdateOrderStatusRequest.mk t) db
    = (Ok (order_id, t), db')
    /\ status_of db' o = Some t.
Proof.
  intros Ho Hs Hin.
  unfold PUT_api_orders, with_body, UpdateOrderStatusRequest.validate.
  cbn [UpdateOrderStatusRequest.status].
  rewrite (proj2 (one_of_In _ _) Hin).
  unfold update_order_status. rewrite Ho.
  cbn [UpdateOrderStatusRequest.status].
  pose proof (update_one_spec (order db) o (Order.set_status t)) as Hu.
  unfold status_of in Hs.
  destruct (find_one (order db) o) as [d|]; [|discriminate].
  destruct (update_one (order db) o (Order.set_status t)) as [n c'].
  cbn in Hu. destruct Hu as [-> Hfind]. cbn.
  eexists. split; [reflexivity|].
  unfold status_of. cbn. rewrite Hfind. reflexivity.
Qed.

Lemma put_step_any (s t : string) :
  In t UpdateOrderStatusRequest.statuses -> put_step s t.
Proof.
  intros Hin.
  pose (doc := Order.set_status s (order_of_request (Sample.request []))).
  pose (db := mkStore [] [] [] [(Sample.inv_a, doc)] 1).
  destruct (PUT_api_orders_accepts db Sample.inv_a Sample.inv_a s t
              eq_refl eq_refl Hin) as (db' & Hput & Hst).
  exact (put_step_intro db db' Sample.inv_a Sample.inv_a _ _ s t
           eq_refl eq_refl Hput Hst).
Qed.

(** C3, amended.  Of the seven states, the six other than
    [pending_validation] are each reached by one [PUT /api/orders/{id}]
    from every state: the update of an existing order to one of them
    succeeds whatever its current status.  [pending_validation] is reached
    by no sequence of such requests, from any state; and it is the state
    of every order at creation: the order [POST /api/orders] persists, and
    the response it returns, have status [pending_validation]. *)
Theorem order_status_machine :
  (forall db order_id o s t,
      bson.ObjectId order_id = Some o ->
      status_of db o = Some s ->
      In t order_statuses -> t <> "pending_validation" ->
      exists db',
        PUT_api_orders order_id (UpdateOrderStatusRequest.mk t) db
        = (Ok (order_id, t), db')
        /\ status_of db' o = Some t)
  /\ (forall s t,
         In t order_statuses -> t <> "pending_validation" -> reachable s t)
  /\ (forall s, ~ reachable s "pending_validation")
  /\ (forall payload db resp db',
         POST_api_orders payload db = (Ok resp, db') ->
         OrderResponse.status resp = "pending_validation"
         /\ exists doc,
              order db' = (order db ++ [(OrderResponse.order_id resp, doc)])%list
              /\ Order.status doc = "pending_validation").
Proof.
  assert (Hsix : forall t, In t order_statuses -> t <> "pending_validation" ->
                           In t UpdateOrderStatusRequest.statuses).
  { intros t [<- | Hin] Hne; [contradiction|exact Hin]. }
  split; [|split; [|split]].
  - intros db order_id o s t Ho Hs Hin Hne.
    exact (PUT_api_orders_accepts db order_id o s t Ho Hs (Hsix t Hin Hne)).
  - intros s t Hin Hne. apply t_step, put_step_any, Hsix; assumption.
  - intros s H.
    exact (pending_validation_not_a_target (reachable_target _ _ H)).
  - intros payload db resp db' H.
    apply POST_api_orders_ok in H as (_ & _ & -> & ->).
    split; [reflexivity|].
    exists (order_of_request payload). split; reflexivity.
Qed.

(* ----------------------------------------------------------------- *)
(** ** Search: the query parameters *)

(** C10.  An empty [q] counts as no [q]: with [q] the empty string and
    [barcode] absent or itself empty, [GET /api/search] ends with 400
    "Provide 'q' or 'barcode'" and searches nothing, whatever the store
    and the coordinates. *)
Theorem search_empty_query_rejected :
  forall (regex_i : string -> option (string -> bool))
         (latitude longitude : option Q) (db : Store),
    search_inventories regex_i (Some "") None latitude longitude db
    = Raise (HTTPException 400 "Provide 'q' or 'barcode'")
    /\ search_inventories regex_i (Some "") (Some "") latitude longitude db
       = Raise (HTTPException 400 "Provide 'q' or 'barcode'")
    /\ search_inventories regex_i None (Some "") latitude longitude db
       = Raise (HTTPException 400 "Provide 'q' or 'barcode'")
    /\ search_inventories regex_i None None latitude longitude db
       = Raise (HTTPException 400 "Provide 'q' or 'barcode'").
Proof. intros. repeat split. Qed.

(* ----------------------------------------------------------------- *)
(** ** Search: which medicines match *)

Lemma truthy_Some (s : string) : Py.truthy (Some s) = true -> s <> "".
Proof. destruct s; [discriminate|discriminate]. Qed.

Lemma build_med_filter_barcode (q : option string) (barcode : string) :
  Py.truthy (Some barcode) = true ->
  build_med_filter q (Some barcode) = FilterBarcode barcode.
Proof. destruct barcode; [discriminate|]. intros _. reflexivity. Qed.

Lemma build_med_filter_q (q : string) (barcode : option string) :
  Py.truthy (Some q) = true -> Py.truthy barcode = false ->
  build_med_filter (Some q) barcode = FilterNameOrDci q.
Proof.
  destruct q; [discriminate|]. intros _.
  destruct barcode as [[|c b]|]; [reflexivity|discriminate|reflexivity].
Qed.









(* ----------------------------------------------------------------- *)
(** ** Search: the order of the results *)

Section SortFacts.
Context {A K : Type} (ltb : K -> K -> bool) (key : A -> K).
Hypothesis ltb_asym : forall a b, ltb a b = true -> ltb b a = false.
Hypothesis ltb_false_trans :
  forall a b c, ltb b a = false -> ltb c b = false -> ltb c a = false.

(** [x] may stand before [y]: the key of [y] is not below that of [x]. *)
Local Abbreviation not_after := (fun x y : A => ltb (key y) (key x) = false).

Lemma insert_In (x y : A) (l : list A) :
  In y (Py.insert ltb key x l) <-> y = x \/ In y l.
Proof.
  induction l as [|z l IH]; cbn [Py.insert].
  - cbn. intuition.
  - destruct (ltb (key x) (key z)); cbn [In]; [|rewrite IH]; intuition.
Qed.

Lemma insert_sorted (x : A) (l : list A) :
  StronglySorted not_after l -> StronglySorted not_after (Py.insert ltb key x l).
Proof.
  induction 1 as [|z l Hl IH Hz]; cbn [Py.insert].
  - constructor; constructor.
  - destruct (ltb (key x) (key z)) eqn:Hxz.
    + constructor; [constructor; assumption|].
      constructor; [exact (ltb_asym _ _ Hxz)|].
      rewrite Forall_forall in *. intros w Hw.
      exact (ltb_false_trans _ _ _ (ltb_asym _ _ Hxz) (Hz w Hw)).
    + constructor; [exact IH|].
      rewrite Forall_forall in *. intros w Hw.
      apply insert_In in Hw as [-> | Hw]; [exact Hxz|exact (Hz w Hw)].
Qed.

Lemma sort_acc_sorted (l acc : list A) :
  StronglySorted not_after acc ->
  StronglySorted not_after (fold_left (fun acc x => Py.insert ltb key x acc) l acc).
Proof.
  revert acc. induction l as [|x l IH]; intros acc Hacc; [exact Hacc|].
  cbn [fold_left]. apply IH, insert_sorted, Hacc.
Qed.

Lemma sort_sorted (l : list A) : StronglySorted not_after (Py.sort ltb key l).
Proof. apply sort_acc_sorted. constructor. Qed.

Lemma sort_acc_In (y : A) (l acc : list A) :
  In y (fold_left (fun acc x => Py.insert ltb key x acc) l acc)
  <-> In y l \/ In y acc.
Proof.
  revert acc. induction l as [|x l IH]; intros acc; cbn [fold_left In].
  - intuition.
  - rewrite IH, insert_In. intuition.
Qed.

Lemma sort_In (y : A) (l : list A) : In y (Py.sort ltb key l) <-> In y l.
Proof. unfold Py.sort. rewrite sort_acc_In. cbn. intuition. Qed.

End SortFacts.


(** The comparison of keys, read as an order on pairs of rationals. *)
Lemma Qltb_true (x y : Q) : Py.Qltb x y = true <-> (x < y)%Q.
Proof.
  unfold Py.Qltb. rewrite negb_true_iff. split.
  - intros H. apply Qnot_le_lt. intros Hle.
    apply Qle_bool_iff in Hle. congruence.
  - intros H. destruct (Qle_bool y x) eqn:Hb; [|reflexivity].
    apply Qle_bool_iff in Hb. lra.
Qed.

Lemma Qltb_false (x y : Q) : Py.Qltb x y = false <-> (y <= x)%Q.
Proof.
  unfold Py.Qltb. rewrite negb_false_iff. apply Qle_bool_iff.
Qed.

Lemma tuple_lt_false (k1 k2 : Q * Q) :
  Py.tuple_lt k1 k2 = false <-> key_le k2 k1.
Proof.
  unfold Py.tuple_lt, key_le.
  destruct (Qeq_bool (fst k1) (fst k2)) eqn:He.
  - apply Qeq_bool_iff in He. rewrite Qltb_false. split.
    + intros H. right. split; [symmetry; exact He|exact H].
    + intros [H|[_ H]]; [lra|exact H].
  - apply Qeq_bool_neq in He. rewrite Qltb_false. split.
    + intros H. left. apply Qle_lt_or_eq in H as [H|H]; [exact H|].
      exfalso. apply He. symmetry. exact H.
    + intros [H|[H _]]; [lra|exfalso; apply He; symmetry; exact H].
Qed.

Lemma tuple_lt_asym (a b : Q * Q) :
  Py.tuple_lt a b = true -> Py.tuple_lt b a = false.
Proof.
  intros H. apply tuple_lt_false.
  destruct (Py.tuple_lt b a) eqn:Hba.
  - exfalso. revert H Hba. unfold Py.tuple_lt.
    destruct (Qeq_bool (fst a) (fst b)) eqn:E1;
      destruct (Qeq_bool (fst b) (fst a)) eqn:E2;
      rewrite !Qltb_true; intros; try lra;
      try apply Qeq_bool_iff in E1; try apply Qeq_bool_iff in E2;
      try apply Qeq_bool_neq in E1; try apply Qeq_bool_neq in E2; lra.
  - apply tuple_lt_false. exact Hba.
Qed.

Lemma tuple_lt_false_trans (a b c : Q * Q) :
  Py.tuple_lt b a = false -> Py.tuple_lt c b = false -> Py.tuple_lt c a = false.
Proof.
  rewrite !tuple_lt_false. unfold key_le.
  intros [H1|[H1 H1']] [H2|[H2 H2']].
  - left. lra.
  - left. lra.
  - left. lra.
  - right. split; lra.
Qed.

(** *** No computed distance reaches the sentinel *)




Lemma StronglySorted_weaken {A} (R R' : A -> A -> Prop) (l : list A) :
  (forall x y, R x y -> R' x y) -> StronglySorted R l -> StronglySorted R' l.
Proof.
  intros HR. induction 1 as [|z l Hl IH Hz]; constructor; [exact IH|].
  rewrite Forall_forall in *. intros w Hw. apply HR, Hz, Hw.
Qed.

(** The rows of a result are sorted by their keys, and the distance of
    each comes from [distance_to]. *)
Lemma search_inventories_rows
  (regex_i : string -> option (string -> bool)) (q barcode : option string)
  (latitude longitude : option Q) (db : Store)
  (resp : list SearchResponseItem.t) :
  search_inventories regex_i q barcode latitude longitude db = Ok resp ->
  StronglySorted (fun x y => key_le (sort_key x) (sort_key y)) resp
  /\ (forall x, In x resp ->
        exists ph, SearchResponseItem.distance_km x
                   = distance_to latitude longitude ph).
Proof.
  unfold search_inventories.
  destruct (negb (Py.truthy q) && negb (Py.truthy barcode)); [discriminate|].
  destruct (resolve_medicines regex_i q barcode db) as [meds|]; [|discriminate].
  destruct (is_empty meds).
  { intros H. injection H as <-. split; [constructor|intros x []]. }
  match goal with |- context [is_empty ?l] => set (inventories := l) end.
  destruct (is_empty inventories).
  { intros H. injection H as <-. split; [constructor|intros x []]. }
  destruct (traverse bson.ObjectId _) as [oids|]; [|discriminate].
  intros H. injection H as <-. split.
  - eapply StronglySorted_weaken;
      [|apply (sort_sorted Py.tuple_lt sort_key tuple_lt_asym tuple_lt_false_trans)].
    intros x y Hxy. apply tuple_lt_false. exact Hxy.
  - intros x Hx. apply sort_In in Hx. apply in_map_iff in Hx as (inv & <- & _).
    eexists. reflexivity.
Qed.



(** *** A search with coordinates *)




(* ----------------------------------------------------------------- *)
(** ** More on the distance utility *)

Section HaversineMore.
Local Open Scope R_scope.

Lemma asin_nonneg (x : R) : 0 <= x -> 0 <= asin x.
Proof.
  intros Hx. unfold asin.
  destruct (Rle_dec x (-1)) as [H|_]; [lra|].
  destruct (Rle_dec 1 x) as [_|H1]; [pose proof PI2_RGT_0; lra|].
  assert (Hs : 0 < sqrt (1 - x²)).
  { apply sqrt_lt_R0. unfold Rsqr. nra. }
  destruct (Req_dec x 0) as [->|Hne].
  - replace (0 / sqrt (1 - 0²)) with 0 by (field; lra).
    rewrite atan_0. lra.
  - assert (Hq : 0 < x / sqrt (1 - x²)).
    { apply Rdiv_lt_0_compat; lra. }
    pose proof (atan_increasing _ _ Hq) as Hi. rewrite atan_0 in Hi. lra.
Qed.

Lemma haversine_nonneg (lat1 lon1 lat2 lon2 : R) :
  0 <= haversine_km lat1 lon1 lat2 lon2.
Proof.
  unfold haversine_km. cbv zeta.
  match goal with
  | |- 0 <= 2 * asin (sqrt ?a) * _ =>
      pose proof (asin_nonneg (sqrt a) (sqrt_pos a))
  end.
  lra.
Qed.

(** The distance between any two points lies between 0 and half the
    circumference, [PI * 6371], which is below 20015.2 km. *)
Theorem haversine_km_range (lat1 lon1 lat2 lon2 : R) :
  0 <= haversine_km lat1 lon1 lat2 lon2 <= PI * 6371
  /\ PI * 6371 < 20015.2.
Proof.
  split; [split; [apply haversine_nonneg|apply haversine_upper]|].
  pose proof PI_5_digits. lra.
Qed.






End HaversineMore.

(* ----------------------------------------------------------------- *)
(** ** More on order placement *)

(** *** Rounding *)











(** *** What a placement reads and what it writes *)

Lemma item_rejection_inventory (db1 db2 : Store) (item : OrderItem.t) :
  inventory db1 = inventory db2 ->
  item_rejection db1 item = item_rejection db2 item.
Proof. intros H. unfold item_rejection. rewrite H. reflexivity. Qed.

Lemma order_rejection_inventory (db1 db2 : Store)
  (payload : CreateOrderRequest.t) :
  inventory db1 = inventory db2 ->
  order_rejection db1 payload = order_rejection db2 payload.
Proof.
  intros H. unfold order_rejection.
  assert (Hf : forall items, first_rejection db1 items = first_rejection db2 items).
  { induction items as [|item rest IH]; [reflexivity|].
    cbn. rewrite (item_rejection_inventory db1 db2 item H), IH. reflexivity. }
  rewrite Hf. reflexivity.
Qed.

(** Placing an order writes to the order collection only: the stock of
    the inventories is what it was, and so are the medicines and the
    pharmacies.  The same request is therefore accepted again on the
    resulting store, however little stock there is. *)
Theorem placement_keeps_stock (payload : CreateOrderRequest.t)
  (db db' : Store) (resp : OrderResponse.t) :
  POST_api_orders payload db = (Ok resp, db') ->
  inventory db' = inventory db
  /\ medicine db' = medicine db
  /\ pharmacy db' = pharmacy db
  /\ exists resp2 db'',
       POST_api_orders payload db' = (Ok resp2, db'')
       /\ inventory db'' = inventory db.
Proof.
  intros H. apply POST_api_orders_ok in H as (Hv & Hrej & -> & ->).
  repeat (split; [reflexivity|]).
  rewrite POST_api_orders_eq, Hv.
  rewrite (order_rejection_inventory
             (store_with_order db (order_of_request payload)) db payload eq_refl).
  rewrite Hrej. eexists. eexists. split; reflexivity.
Qed.

Lemma placement_keeps_stock_witness :
  let payload := Sample.request [Sample.item Sample.inv_a 5 false] in
  exists resp db' resp2 db'',
    POST_api_orders payload Sample.store = (Ok resp, db')
    /\ POST_api_orders payload db' = (Ok resp2, db'')
    /\ inventory db'' = inventory Sample.store.
Proof.
  intros payload.
  destruct (POST_api_orders payload Sample.store) as [r db'] eqn:H.
  destruct r as [resp|e]; [|vm_compute in H; discriminate].
  destruct (placement_keeps_stock _ _ _ _ H)
    as (_ & _ & _ & resp2 & db'' & H2 & Hinv).
  exists resp, db', resp2, db''. split; [reflexivity|]. split; assumption.
Defined.

Lemma first_rejection_none_inv (db : Store) (items : list OrderItem.t) :
  first_rejection db items = None ->
  Forall (fun item => item_rejection db item = None) items.
Proof.
  induction items as [|item rest IH]; intros H; [constructor|].
  cbn in H. destruct (item_rejection db item) eqn:Hi; [discriminate|].
  constructor; [exact Hi|exact (IH H)].
Qed.

(** Every item of a placed order names an existing inventory document
    that holds at least the requested quantity, which is at least 1. *)
Theorem placed_items_are_in_stock (payload : CreateOrderRequest.t)
  (db db' : Store) (resp : OrderResponse.t) :
  POST_api_orders payload db = (Ok resp, db') ->
  Forall
    (fun item =>
       exists o inv,
         bson.ObjectId (OrderItem.inventory_id item) = Some o
         /\ find_one (inventory db) o = Some inv
         /\ (1 <= OrderItem.quantity item <= Inventory.stock inv)%Z)
    (CreateOrderRequest.items payload).
Proof.
  intros H. apply POST_api_orders_ok in H as (Hv & Hrej & _ & _).
  unfold order_rejection in Hrej.
  destruct (first_rejection db (CreateOrderRequest.items payload)) eqn:Hf;
    [discriminate|].
  apply first_rejection_none_inv in Hf.
  unfold CreateOrderRequest.validate in Hv.
  apply andb_true_iff in Hv as [Hq _].
  rewrite forallb_forall in Hq. rewrite Forall_forall in *.
  intros item Hin. specialize (Hf item Hin). specialize (Hq item Hin).
  unfold item_rejection in Hf. unfold OrderItem.validate in Hq.
  destruct (bson.ObjectId (OrderItem.inventory_id item)) as [o|] eqn:Ho;
    [|discriminate].
  destruct (find_one (inventory db) o) as [inv|] eqn:Hinv; [|discriminate].
  destruct (Inventory.stock inv <? OrderItem.quantity item)%Z eqn:Hs;
    [discriminate|].
  apply Z.ltb_ge in Hs. apply Z.leb_le in Hq.
  exists o, inv. split; [reflexivity|]. split; [exact Hinv|]. lia.
Qed.

Lemma placed_items_are_in_stock_witness :
  exists resp db',
    POST_api_orders Sample.request_1000 Sample.store = (Ok resp, db')
    /\ exists o inv,
         bson.ObjectId Sample.inv_a = Some o
         /\ find_one (inventory Sample.store) o = Some inv
         /\ (1 <= 2 <= Inventory.stock inv)%Z.
Proof.
  destruct (POST_api_orders Sample.request_1000 Sample.store) as [r db'] eqn:H.
  destruct r as [resp|e]; [|vm_compute in H; discriminate].
  exists resp, db'. split; [reflexivity|].
  pose proof (placed_items_are_in_stock _ _ _ _ H) as Hall.
  apply Forall_inv in Hall. exact Hall.
Defined.



(** A request with an item whose quantity is below 1, or with a delivery
    method other than the two literals, is refused by the validation of
    the body: no inventory is looked up and the store is untouched,
    whatever it holds. *)
Theorem invalid_body_is_refused (payload : CreateOrderRequest.t) (db : Store) :
  (exists item,
      In item (CreateOrderRequest.items payload)
      /\ (OrderItem.quantity item < 1)%Z)
  \/ ~ In (CreateOrderRequest.delivery_method payload) delivery_methods ->
  POST_api_orders payload db = (Raise RequestValidationError, db).
Proof.
  intros H. rewrite POST_api_orders_eq.
  assert (Hv : CreateOrderRequest.validate payload = false).
  { unfold CreateOrderRequest.validate. destruct H as [(item & Hin & Hq)|Hm].
    - apply andb_false_iff. left.
      destruct (forallb OrderItem.validate (CreateOrderRequest.items payload))
        eqn:Hall; [|reflexivity].
      rewrite forallb_forall in Hall. specialize (Hall item Hin).
      unfold OrderItem.validate in Hall. apply Z.leb_le in Hall. lia.
    - apply andb_false_iff. right.
      destruct (one_of delivery_methods (CreateOrderRequest.delivery_method payload))
        eqn:Ho; [|reflexivity].
      apply one_of_In in Ho. contradiction. }
  rewrite Hv. reflexivity.
Qed.

Lemma invalid_body_is_refused_witness :
  let payload := Sample.request [Sample.item Sample.inv_c 0 false] in
  (OrderItem.quantity (Sample.item Sample.inv_c 0 false) < 1)%Z
  /\ POST_api_orders payload Sample.store
     = (Raise RequestValidationError, Sample.store).
Proof.
  intros payload. split; [reflexivity|].
  apply invalid_body_is_refused. left.
  exists (Sample.item Sample.inv_c 0 false). split; [left; reflexivity|reflexivity].
Defined.

(* ----------------------------------------------------------------- *)
(** ** Identifiers, retrieval and status updates *)

(** *** Generated identifiers are well formed *)

Lemma hex_digit_ok (k : N) :
  (k < 16)%N ->
  bson.is_hex (bson.hex_digit k) = true
  /\ bson.lower (bson.hex_digit k) = bson.hex_digit k.
Proof.
  intros Hk. destruct k as [|p]; [split; reflexivity|].
  repeat match goal with
         | q : positive |- _ =>
             destruct q as [q|q|]; try (split; reflexivity); try lia
         end.
Qed.

Lemma length_append (a b : string) :
  String.length (a ++ b) = (String.length a + String.length b)%nat.
Proof. induction a as [|c a IH]; cbn; [reflexivity|rewrite IH; reflexivity]. Qed.

Lemma all_hex_append (a b : string) :
  bson.all_hex (a ++ b) = bson.all_hex a && bson.all_hex b.
Proof.
  induction a as [|c a IH]; cbn; [reflexivity|].
  rewrite IH, andb_assoc. reflexivity.
Qed.

Lemma lower_string_append (a b : string) :
  bson.lower_string (a ++ b) = bson.lower_string a ++ bson.lower_string b.
Proof. induction a as [|c a IH]; cbn; [reflexivity|rewrite IH; reflexivity]. Qed.

Lemma hex_ok (digits : nat) :
  forall n,
    String.length (bson.hex digits n) = digits
    /\ bson.all_hex (bson.hex digits n) = true
    /\ bson.lower_string (bson.hex digits n) = bson.hex digits n.
Proof.
  induction digits as [|d IH]; intros n; [repeat split|].
  cbn [bson.hex].
  destruct (IH (n / 16)%N) as (Hl & Hh & Hc).
  destruct (hex_digit_ok (n mod 16)%N) as [Hd1 Hd2];
    [apply N.mod_lt; discriminate|].
  rewrite length_append, all_hex_append, lower_string_append, Hl, Hh, Hc.
  cbn. rewrite Hd1, Hd2. repeat split. lia.
Qed.

Lemma ObjectId_generate (n : N) :
  bson.ObjectId (bson.generate n) = Some (bson.generate n).
Proof.
  unfold bson.ObjectId, bson.generate.
  destruct (hex_ok 24 n) as (Hl & Hh & Hc).
  rewrite Hl, Hh, Hc. reflexivity.
Qed.

(** *** Lookup after an insertion or an update *)

Lemma find_one_app {A} (c : collection A) (o k : bson.oid) (d : A) :
  find_one (c ++ [(k, d)])%list o
  = match find_one c o with
    | Some x => Some x
    | None => if String.eqb k o then Some d else None
    end.
Proof.
  induction c as [|[k' d'] c IH]; cbn; [reflexivity|].
  destruct (String.eqb k' o); [reflexivity|exact IH].
Qed.

Lemma set_order_same (db : Store) : set_order (order db) db = db.
Proof. destruct db. reflexivity. Qed.

Lemma update_one_keys {A} (c : collection A) (o : bson.oid) (f : A -> A) :
  map fst (snd (update_one c o f)) = map fst c.
Proof.
  induction c as [|[k d] c IH]; [reflexivity|].
  cbn [update_one]. destruct (String.eqb k o); [reflexivity|].
  destruct (update_one c o f) as [n c']. cbn in *. rewrite IH. reflexivity.
Qed.

Lemma update_one_others {A} (c : collection A) (o o' : bson.oid) (f : A -> A) :
  o' <> o -> find_one (snd (update_one c o f)) o' = find_one c o'.
Proof.
  intros Hne. induction c as [|[k d] c IH]; [reflexivity|].
  cbn [update_one]. destruct (String.eqb k o) eqn:Hk.
  - apply String.eqb_eq in Hk. subst k. cbn.
    destruct (String.eqb o o') eqn:Ho; [|reflexivity].
    apply String.eqb_eq in Ho. congruence.
  - destruct (update_one c o f) as [n c']. cbn in *. rewrite IH. reflexivity.
Qed.

Lemma update_one_twice {A} (c : collection A) (o : bson.oid) (f g : A -> A) :
  (forall d, g (f d) = g d) ->
  update_one (snd (update_one c o f)) o g = update_one c o g.
Proof.
  intros Hgf. induction c as [|[k d] c IH]; [reflexivity|].
  cbn [update_one]. destruct (String.eqb k o) eqn:Hk.
  - cbn. rewrite Hk, Hgf. reflexivity.
  - destruct (update_one c o f) as [n c'] eqn:Hu. cbn in *.
    rewrite Hk, IH. reflexivity.
Qed.

(** [PUT /api/orders/{id}], step by step. *)
Lemma PUT_api_orders_eq (order_id : string)
  (payload : UpdateOrderStatusRequest.t) (db : Store) :
  PUT_api_orders order_id payload db =
  if UpdateOrderStatusRequest.validate payload then
    match bson.ObjectId order_id with
    | None => (Raise InvalidId, db)
    | Some o =>
        match find_one (order db) o with
        | None => (Raise (HTTPException 404 "Order not found"), db)
        | Some _ =>
            (Ok (order_id, UpdateOrderStatusRequest.status payload),
             set_order
               (snd (update_one (order db) o
                       (Order.set_status (UpdateOrderStatusRequest.status payload))))
               db)
        end
    end
  else (Raise RequestValidationError, db).
Proof.
  unfold PUT_api_orders, with_body.
  destruct (UpdateOrderStatusRequest.validate payload); [|reflexivity].
  unfold update_order_status.
  destruct (bson.ObjectId order_id) as [o|]; [|reflexivity].
  pose proof (update_one_spec (order db) o
                (Order.set_status (UpdateOrderStatusRequest.status payload))) as Hu.
  destruct (find_one (order db) o) as [d|].
  - destruct Hu as [Hn _].
    destruct (update_one (order db) o _) as [n c']. cbn in *. subst n.
    reflexivity.
  - rewrite Hu. cbn. rewrite set_order_same. reflexivity.
Qed.

(** *** Retrieval *)

(** An order that was placed is retrieved under the identifier the
    response carries, with the fields of the request, provided the
    identifier the store generated was not in use; the orders already
    stored are retrieved as before. *)
Theorem placed_order_is_retrieved (payload : CreateOrderRequest.t)
  (db db' : Store) (resp : OrderResponse.t) :
  POST_api_orders payload db = (Ok resp, db') ->
  find_one (order db) (bson.generate (counter db)) = None ->
  get_order (OrderResponse.order_id resp) db'
  = Ok (OrderResponse.order_id resp, order_of_request payload)
  /\ (forall order_id r,
         get_order order_id db = Ok r -> get_order order_id db' = Ok r).
Proof.
  intros H Hfresh. apply POST_api_orders_ok in H as (_ & _ & -> & ->).
  split.
  - unfold get_order.
    cbn [response_of_order OrderResponse.order_id]. unfold bson.str.
    rewrite ObjectId_generate.
    cbn [store_with_order order]. rewrite find_one_app, Hfresh.
    rewrite String.eqb_refl. reflexivity.
  - intros order_id r. unfold get_order.
    destruct (bson.ObjectId order_id) as [o|]; [|discriminate].
    cbn [store_with_order order]. rewrite find_one_app.
    destruct (find_one (order db) o); [auto|discriminate].
Qed.

Lemma placed_order_is_retrieved_witness :
  exists resp db',
    POST_api_orders Sample.request_1000 Sample.store = (Ok resp, db')
    /\ OrderResponse.order_id resp = "000000000000000000000000"
    /\ get_order "000000000000000000000000" db'
       = Ok ("000000000000000000000000", order_of_request Sample.request_1000).
Proof.
  destruct (POST_api_orders Sample.request_1000 Sample.store) as [r db'] eqn:H.
  destruct r as [resp|e]; [|vm_compute in H; discriminate].
  exists resp, db'. split; [reflexivity|].
  destruct (placed_order_is_retrieved _ _ _ _ H eq_refl) as [Hget _].
  assert (Hid : OrderResponse.order_id resp = "000000000000000000000000").
  { apply POST_api_orders_ok in H as (_ & _ & -> & _). reflexivity. }
  split; [exact Hid|]. rewrite <- Hid at 1 2. exact Hget.
Defined.

(** A well-formed identifier under which no order is stored gives 404,
    and a malformed one the [InvalidId] of the driver. *)
Theorem get_order_missing (order_id : string) (db : Store) :
  (forall o,
      bson.ObjectId order_id = Some o ->
      find_one (order db) o = None ->
      get_order order_id db = Raise (HTTPException 404 "Order not found"))
  /\ (bson.ObjectId order_id = None -> get_order order_id db = Raise InvalidId)
  /\ (forall r,
         get_order order_id db = Ok r ->
         exists o, bson.ObjectId order_id = Some o
                   /\ fst r = o /\ In (o, snd r) (order db)).
Proof.
  unfold get_order. split; [|split].
  - intros o -> ->. reflexivity.
  - intros ->. reflexivity.
  - intros r. destruct (bson.ObjectId order_id) as [o|]; [|discriminate].
    destruct (find_one (order db) o) as [doc|] eqn:Hf; [|discriminate].
    intros H. injection H as <-. exists o. repeat split.
    clear -Hf. induction (order db) as [|[k d] c IH]; [discriminate|].
    cbn in Hf. destruct (String.eqb k o) eqn:Hk.
    + apply String.eqb_eq in Hk. injection Hf as ->. subst. left. reflexivity.
    + right. exact (IH Hf).
Qed.

(** *** Status updates *)

(** A status update that ends with an exception leaves the store as it
    was; on a well-formed identifier under which no order is stored the
    exception is the 404. *)
Theorem update_order_status_atomic (order_id : string)
  (payload : UpdateOrderStatusRequest.t) (db : Store) :
  (forall e db', PUT_api_orders order_id payload db = (Raise e, db') -> db' = db)
  /\ (forall o,
         UpdateOrderStatusRequest.validate payload = true ->
         bson.ObjectId order_id = Some o ->
         find_one (order db) o = None ->
         PUT_api_orders order_id payload db
         = (Raise (HTTPException 404 "Order not found"), db)).
Proof.
  rewrite PUT_api_orders_eq. split.
  - intros e db'.
    destruct (UpdateOrderStatusRequest.validate payload);
      [destruct (bson.ObjectId order_id) as [o|];
       [destruct (find_one (order db) o)|]|];
      intros H; first [discriminate | injection H as _ <-; reflexivity].
  - intros o -> -> ->. reflexivity.
Qed.

Lemma update_order_status_atomic_witness :
  PUT_api_orders Sample.inv_a (UpdateOrderStatusRequest.mk "validated") Sample.store
  = (Raise (HTTPException 404 "Order not found"), Sample.store).
Proof.
  exact (proj2 (update_order_status_atomic Sample.inv_a
                  (UpdateOrderStatusRequest.mk "validated") Sample.store)
               Sample.inv_a eq_refl eq_refl eq_refl).
Defined.

(** A successful status update changes the status of the order it names
    and nothing else: the other collections, the sequence of order
    identifiers and every other order are what they were, and the order
    itself keeps its items and its amounts. *)
Theorem update_order_status_frame (order_id : string) (o : bson.oid)
  (payload : UpdateOrderStatusRequest.t) (db db' : Store)
  (r : string * string) :
  bson.ObjectId order_id = Some o ->
  PUT_api_orders order_id payload db = (Ok r, db') ->
  r = (order_id, UpdateOrderStatusRequest.status payload)
  /\ medicine db' = medicine db
  /\ inventory db' = inventory db
  /\ pharmacy db' = pharmacy db
  /\ map fst (order db') = map fst (order db)
  /\ (forall o', o' <> o -> find_one (order db') o' = find_one (order db) o')
  /\ exists doc doc',
       find_one (order db) o = Some doc
       /\ find_one (order db') o = Some doc'
       /\ Order.status doc' = UpdateOrderStatusRequest.status payload
       /\ Order.items doc' = Order.items doc
       /\ Order.user_phone doc' = Order.user_phone doc
       /\ Order.pharmacy_id doc' = Order.pharmacy_id doc
       /\ Order.total_amount doc' = Order.total_amount doc
       /\ Order.service_fee doc' = Order.service_fee doc
       /\ Order.delivery_fee doc' = Order.delivery_fee doc.
Proof.
  intros Ho. rewrite PUT_api_orders_eq, Ho.
  destruct (UpdateOrderStatusRequest.validate payload); [|discriminate].
  destruct (find_one (order db) o) as [doc|] eqn:Hf; [|discriminate].
  intros H. injection H as <- <-.
  split; [reflexivity|]. repeat (split; [reflexivity|]).
  cbn [set_order order].
  split; [apply update_one_keys|].
  split; [intros o' Hne; apply update_one_others, Hne|].
  pose proof (update_one_spec (order db) o
                (Order.set_status (UpdateOrderStatusRequest.status payload))) as Hu.
  rewrite Hf in Hu. destruct Hu as [_ Hu].
  exists doc, (Order.set_status (UpdateOrderStatusRequest.status payload) doc).
  split; [reflexivity|]. split; [exact Hu|]. repeat split.
Qed.

(** Of two status updates of the same order the second decides: after a
    first successful update, a second one with an admitted status gives the
    response and the store it gives without the first.  In particular a
    repeated update changes nothing. *)
Theorem update_order_status_last_wins (order_id : string)
  (p1 p2 : UpdateOrderStatusRequest.t) (db db1 : Store) (r1 : string * string) :
  PUT_api_orders order_id p1 db = (Ok r1, db1) ->
  UpdateOrderStatusRequest.validate p2 = true ->
  PUT_api_orders order_id p2 db1 = PUT_api_orders order_id p2 db
  /\ PUT_api_orders order_id p1 db1 = (Ok r1, db1).
Proof.
  intros H1 Hv2.
  assert (Hv1 : UpdateOrderStatusRequest.validate p1 = true).
  { rewrite PUT_api_orders_eq in H1.
    destruct (UpdateOrderStatusRequest.validate p1); [reflexivity|discriminate]. }
  assert (Hgen : forall p,
             UpdateOrderStatusRequest.validate p = true ->
             PUT_api_orders order_id p db1 = PUT_api_orders order_id p db).
  { intros p Hv. rewrite !PUT_api_orders_eq, Hv.
    rewrite PUT_api_orders_eq, Hv1 in H1.
    destruct (bson.ObjectId order_id) as [o|]; [|discriminate].
    destruct (find_one (order db) o) as [doc|] eqn:Hf; [|discriminate].
    injection H1 as _ <-. cbn [set_order order].
    pose proof (update_one_spec (order db) o
                  (Order.set_status (UpdateOrderStatusRequest.status p1))) as Hu.
    rewrite Hf in Hu. destruct Hu as [_ Hu]. rewrite Hu.
    rewrite update_one_twice; [reflexivity|].
    intros d. reflexivity. }
  split; [exact (Hgen p2 Hv2)|]. rewrite (Hgen p1 Hv1). exact H1.
Qed.

(** Placement, update, retrieval: an order that was placed can be moved
    to each of the six statuses, and is then retrieved with that status
    and the fields of the request. *)
Theorem order_lifecycle (payload : CreateOrderRequest.t) (db db' : Store)
  (resp : OrderResponse.t) (t : string) :
  POST_api_orders payload db = (Ok resp, db') ->
  find_one (order db) (bson.generate (counter db)) = None ->
  In t UpdateOrderStatusRequest.statuses ->
  exists db'',
    PUT_api_orders (OrderResponse.order_id resp) (UpdateOrderStatusRequest.mk t) db'
    = (Ok (OrderResponse.order_id resp, t), db'')
    /\ get_order (OrderResponse.order_id resp) db''
       = Ok (OrderResponse.order_id resp,
             Order.set_status t (order_of_request payload)).
Proof.
  intros H Hfresh Hin. apply POST_api_orders_ok in H as (_ & _ & -> & ->).
  cbn [response_of_order OrderResponse.order_id]. unfold bson.str.
  rewrite PUT_api_orders_eq.
  unfold UpdateOrderStatusRequest.validate.
  cbn [UpdateOrderStatusRequest.status].
  rewrite (proj2 (one_of_In _ _) Hin), ObjectId_generate.
  assert (Hf : find_one (order (store_with_order db (order_of_request payload)))
                 (bson.generate (counter db))
               = Some (order_of_request payload)).
  { cbn [store_with_order order]. rewrite find_one_app, Hfresh.
    rewrite String.eqb_refl. reflexivity. }
  rewrite Hf. eexists. split; [reflexivity|].
  unfold get_order. rewrite ObjectId_generate. cbn [set_order order].
  pose proof (update_one_spec
                (order (store_with_order db (order_of_request payload)))
                (bson.generate (counter db)) (Order.set_status t)) as Hu.
  rewrite Hf in Hu. destruct Hu as [_ Hu]. rewrite Hu. reflexivity.
Qed.

Lemma update_order_status_frame_witness :
  let db := store_with_order Sample.store (order_of_request Sample.request_1000) in
  exists r db',
    PUT_api_orders "000000000000000000000000"
      (UpdateOrderStatusRequest.mk "preparing") db = (Ok r, db')
    /\ r = ("000000000000000000000000", "preparing")
    /\ inventory db' = inventory db
    /\ map fst (order db') = map fst (order db).
Proof.
  intros db.
  destruct (PUT_api_orders "000000000000000000000000"
              (UpdateOrderStatusRequest.mk "preparing") db) as [res db'] eqn:H.
  destruct res as [r|e]; [|vm_compute in H; discriminate].
  exists r, db'. split; [reflexivity|].
  destruct (update_order_status_frame "000000000000000000000000"
              "000000000000000000000000" _ _ _ _ eq_refl H)
    as (Hr & _ & Hinv & _ & Hkeys & _).
  split; [exact Hr|]. split; [exact Hinv|exact Hkeys].
Defined.

Lemma update_order_status_last_wins_witness :
  let db := store_with_order Sample.store (order_of_request Sample.request_1000) in
  exists r1 db1,
    PUT_api_orders "000000000000000000000000"
      (UpdateOrderStatusRequest.mk "preparing") db = (Ok r1, db1)
    /\ PUT_api_orders "000000000000000000000000"
         (UpdateOrderStatusRequest.mk "delivered") db1
       = PUT_api_orders "000000000000000000000000"
           (UpdateOrderStatusRequest.mk "delivered") db
    /\ PUT_api_orders "000000000000000000000000"
         (UpdateOrderStatusRequest.mk "preparing") db1 = (Ok r1, db1).
Proof.
  intros db.
  destruct (PUT_api_orders "000000000000000000000000"
              (UpdateOrderStatusRequest.mk "preparing") db) as [res db1] eqn:H.
  destruct res as [r1|e]; [|vm_compute in H; discriminate].
  exists r1, db1. split; [reflexivity|].
  exact (update_order_status_last_wins _ _
           (UpdateOrderStatusRequest.mk "delivered") _ _ _ H eq_refl).
Defined.

Lemma order_lifecycle_witness :
  exists resp db' db'',
    POST_api_orders Sample.request_1000 Sample.store = (Ok resp, db')
    /\ PUT_api_orders (OrderResponse.order_id resp)
         (UpdateOrderStatusRequest.mk "delivered") db'
       = (Ok (OrderResponse.order_id resp, "delivered"), db'')
    /\ get_order (OrderResponse.order_id resp) db''
       = Ok (OrderResponse.order_id resp,
             Order.set_status "delivered" (order_of_request Sample.request_1000)).
Proof.
  destruct (POST_api_orders Sample.request_1000 Sample.store) as [r db'] eqn:H.
  destruct r as [resp|e]; [|vm_compute in H; discriminate].
  assert (Hin : In "delivered" UpdateOrderStatusRequest.statuses)
    by (cbn; tauto).
  destruct (order_lifecycle _ _ _ _ "delivered" H eq_refl Hin)
    as (db'' & Hput & Hget).
  exists resp, db', db''. split; [reflexivity|]. split; assumption.
Defined.

Lemma get_order_missing_witness :
  get_order Sample.inv_a Sample.store = Raise (HTTPException 404 "Order not found")
  /\ get_order "42" Sample.store = Raise InvalidId.
Proof.
  split.
  - exact (proj1 (get_order_missing Sample.inv_a Sample.store)
                 Sample.inv_a eq_refl eq_refl).
  - exact (proj1 (proj2 (get_order_missing "42" Sample.store)) eq_refl).
Defined.

(* ----------------------------------------------------------------- *)
(** ** More on the search *)

Lemma search_inventories_eq
  (regex_i : string -> option (string -> bool)) (q barcode : option string)
  (latitude longitude : option Q) (db : Store) :
  search_inventories regex_i q barcode latitude longitude db =
  if negb (Py.truthy q) && negb (Py.truthy barcode) then
    Raise (HTTPException 400 "Provide 'q' or 'barcode'")
  else
    match resolve_medicines regex_i q barcode db with
    | Raise e => Raise e
    | Ok meds =>
        if is_empty meds then Ok []
        else if is_empty (stocked_inventories meds db) then Ok []
        else
          match traverse bson.ObjectId
                  (map (fun inv => Inventory.pharmacy_id (snd inv))
                       (stocked_inventories meds db)) with
          | None => Raise InvalidId
          | Some oids =>
              Ok (Py.sort Py.tuple_lt sort_key
                    (map (response_item latitude longitude
                            (map (fun p => (bson.str (fst p), snd p))
                                 (filter (fun p => existsb (String.eqb (fst p)) oids)
                                         (pharmacy db))))
                         (stocked_inventories meds db)))
          end
    end.
Proof. reflexivity. Qed.

Lemma filter_nil {A} (f : A -> bool) (l : list A) :
  (forall x, In x l -> f x = false) -> filter f l = [].
Proof.
  induction l as [|x l IH]; intros H; [reflexivity|].
  cbn. rewrite (H x (or_introl eq_refl)). apply IH.
  intros y Hy. apply H. right. exact Hy.
Qed.

Lemma guard_passes (q barcode : option string) :
  Py.truthy q = true \/ Py.truthy barcode = true ->
  negb (Py.truthy q) && negb (Py.truthy barcode) = false.
Proof. intros [-> | ->]; [reflexivity|apply andb_false_r]. Qed.

(** A search that matches nothing answers the empty list, not an error:
    so does a barcode no medicine carries, and so does a query whose
    medicines are referenced by no inventory with stock. *)
Theorem search_without_match_is_empty
  (regex_i : string -> option (string -> bool)) (q barcode : option string)
  (latitude longitude : option Q) (db : Store) :
  (forall b,
      barcode = Some b -> Py.truthy (Some b) = true ->
      (forall m, In m (medicine db) -> Medicine.barcode (snd m) <> Some b) ->
      search_inventories regex_i q barcode latitude longitude db = Ok [])
  /\ (forall meds,
         Py.truthy q = true \/ Py.truthy barcode = true ->
         resolve_medicines regex_i q barcode db = Ok meds ->
         (forall inv,
             In inv (inventory db) ->
             In (Inventory.medicine_id (snd inv)) (map fst meds) ->
             (Inventory.stock (snd inv) <= 0)%Z) ->
         search_inventories regex_i q barcode latitude longitude db = Ok []).
Proof.
  split.
  - intros b -> Hb Hnone. rewrite search_inventories_eq.
    rewrite (guard_passes q (Some b) (or_intror Hb)).
    unfold resolve_medicines. rewrite (build_med_filter_barcode q b Hb).
    cbn [find_medicine]. rewrite filter_nil; [reflexivity|].
    intros m Hm. specialize (Hnone m Hm). unfold eq_some.
    destruct (Medicine.barcode (snd m)) as [b'|]; [|reflexivity].
    destruct (String.eqb b' b) eqn:He; [|reflexivity].
    apply String.eqb_eq in He. subst. contradiction.
  - intros meds Hg Hres Hstock. rewrite search_inventories_eq.
    rewrite (guard_passes q barcode Hg), Hres.
    destruct (is_empty meds); [reflexivity|].
    unfold stocked_inventories. rewrite filter_nil; [reflexivity|].
    intros inv Hinv.
    destruct (existsb _ _) eqn:He; [|reflexivity].
    apply existsb_exists in He as (x & Hx & Heq). apply String.eqb_eq in Heq.
    subst x. unfold bson.str in Hx. rewrite map_ext with (g := fst) in Hx by reflexivity.
    specialize (Hstock inv Hinv Hx). cbn.
    apply Z.ltb_ge. exact Hstock.
Qed.

Lemma search_without_match_is_empty_witness :
  Py.truthy (Some "0000000000000") = true
  /\ search_inventories (Regex.compile true) (Some "doli") (Some "0000000000000")
       None None Sample.store = Ok [].
Proof.
  split; [reflexivity|].
  apply (proj1 (search_without_match_is_empty (Regex.compile true) (Some "doli")
                  (Some "0000000000000") None None Sample.store)
               "0000000000000" eq_refl eq_refl).
  intros m [<- | []]. discriminate.
Defined.

(** The rows of a result, one by one. *)
Lemma search_inventories_row
  (regex_i : string -> option (string -> bool)) (q barcode : option string)
  (latitude longitude : option Q) (db : Store)
  (resp : list SearchResponseItem.t) (row : SearchResponseItem.t) :
  search_inventories regex_i q barcode latitude longitude db = Ok resp ->
  In row resp ->
  exists meds oids inv,
    resolve_medicines regex_i q barcode db = Ok meds
    /\ traverse bson.ObjectId
         (map (fun inv => Inventory.pharmacy_id (snd inv))
              (stocked_inventories meds db)) = Some oids
    /\ In inv (stocked_inventories meds db)
    /\ row = response_item latitude longitude
               (map (fun p => (bson.str (fst p), snd p))
                    (filter (fun p => existsb (String.eqb (fst p)) oids)
                            (pharmacy db)))
               inv.
Proof.
  rewrite search_inventories_eq.
  destruct (negb (Py.truthy q) && negb (Py.truthy barcode)); [discriminate|].
  destruct (resolve_medicines regex_i q barcode db) as [meds|]; [|discriminate].
  destruct (is_empty meds); [intros H; injection H as <-; intros []|].
  destruct (is_empty (stocked_inventories meds db));
    [intros H; injection H as <-; intros []|].
  destruct (traverse bson.ObjectId _) as [oids|] eqn:Ht; [|discriminate].
  intros H. injection H as <-. intros Hrow.
  apply sort_In in Hrow. apply in_map_iff in Hrow as (inv & <- & Hinv).
  exists meds, oids, inv. repeat split; assumption.
Qed.

Lemma stocked_inventories_In (meds : collection Medicine.t) (db : Store)
  (inv : bson.oid * Inventory.t) :
  In inv (stocked_inventories meds db) <->
  In inv (inventory db)
  /\ In (Inventory.medicine_id (snd inv)) (map fst meds)
  /\ (0 < Inventory.stock (snd inv))%Z.
Proof.
  unfold stocked_inventories. rewrite filter_In, andb_true_iff, Z.ltb_lt.
  rewrite existsb_exists.
  rewrite map_ext with (g := fst) by reflexivity.
  split.
  - intros (Hin & (x & Hx & He) & Hs). apply String.eqb_eq in He. subst x.
    repeat split; assumption.
  - intros (Hin & Hm & Hs). repeat split; try assumption.
    exists (Inventory.medicine_id (snd inv)). split; [exact Hm|apply String.eqb_refl].
Qed.

(** Every row of a result is the copy of an inventory document of the
    store that has stock and that references one of the medicines the
    query resolved. *)
Theorem search_rows_come_from_stock
  (regex_i : string -> option (string -> bool)) (q barcode : option string)
  (latitude longitude : option Q) (db : Store)
  (resp : list SearchResponseItem.t) (row : SearchResponseItem.t) :
  search_inventories regex_i q barcode latitude longitude db = Ok resp ->
  In row resp ->
  (0 < SearchResponseItem.stock row)%Z
  /\ exists meds inv,
       resolve_medicines regex_i q barcode db = Ok meds
       /\ In (SearchResponseItem.inventory_id row, inv) (inventory db)
       /\ In (Inventory.medicine_id inv) (map fst meds)
       /\ SearchResponseItem.pharmacy_id row = Inventory.pharmacy_id inv
       /\ SearchResponseItem.medicine_name row = Inventory.medicine_name inv
       /\ SearchResponseItem.dci row = Inventory.dci inv
       /\ SearchResponseItem.barcode row = Inventory.barcode inv
       /\ SearchResponseItem.price row = Inventory.price inv
       /\ SearchResponseItem.stock row = Inventory.stock inv.
Proof.
  intros H Hrow.
  destruct (search_inventories_row _ _ _ _ _ _ _ _ H Hrow)
    as (meds & oids & [id inv] & Hres & _ & Hinv & ->).
  apply stocked_inventories_In in Hinv as (Hin & Hmed & Hstock).
  split; [exact Hstock|].
  exists meds, inv. repeat split; assumption.
Qed.

Lemma search_rows_come_from_stock_witness :
  exists resp row,
    search_inventories (Regex.compile true) (Some "doli") None None None
      Sample.store = Ok resp
    /\ In row resp
    /\ (0 < SearchResponseItem.stock row)%Z.
Proof.
  destruct (search_inventories (Regex.compile true) (Some "doli") None None None
              Sample.store) as [resp|e] eqn:H; [|vm_compute in H; discriminate].
  destruct resp as [|row resp]; [vm_compute in H; discriminate|].
  exists (row :: resp), row. split; [reflexivity|].
  split; [left; reflexivity|].
  exact (proj1 (search_rows_come_from_stock _ _ _ _ _ _ _ row H
                  (or_introl eq_refl))).
Defined.

(** *** One row per inventory *)

Section SortPermutation.
Context {A K : Type} (ltb : K -> K -> bool) (key : A -> K).

Lemma insert_Permutation (x : A) (l : list A) :
  Permutation (Py.insert ltb key x l) (x :: l).
Proof.
  induction l as [|y l IH]; cbn [Py.insert]; [reflexivity|].
  destruct (ltb (key x) (key y)); [reflexivity|].
  rewrite IH. apply perm_swap.
Qed.

Lemma sort_acc_Permutation (l acc : list A) :
  Permutation (fold_left (fun acc x => Py.insert ltb key x acc) l acc) (l ++ acc).
Proof.
  revert acc. induction l as [|x l IH]; intros acc; cbn [fold_left app];
    [reflexivity|].
  rewrite IH, insert_Permutation. symmetry. apply Permutation_middle.
Qed.

Lemma sort_Permutation (l : list A) : Permutation (Py.sort ltb key l) l.
Proof. unfold Py.sort. rewrite sort_acc_Permutation, app_nil_r. reflexivity. Qed.

End SortPermutation.

Lemma stocked_inventories_nil (db : Store) : stocked_inventories [] db = [].
Proof. unfold stocked_inventories. apply filter_nil. reflexivity. Qed.

(** A result has exactly one row for each inventory document with stock
    that references a resolved medicine: the identifiers of its rows are
    those of these documents, in another order. *)
Theorem search_one_row_per_inventory
  (regex_i : string -> option (string -> bool)) (q barcode : option string)
  (latitude longitude : option Q) (db : Store)
  (resp : list SearchResponseItem.t) :
  search_inventories regex_i q barcode latitude longitude db = Ok resp ->
  exists meds,
    resolve_medicines regex_i q barcode db = Ok meds
    /\ Permutation (map SearchResponseItem.inventory_id resp)
         (map fst (stocked_inventories meds db))
    /\ List.length resp = List.length (stocked_inventories meds db).
Proof.
  rewrite search_inventories_eq.
  destruct (negb (Py.truthy q) && negb (Py.truthy barcode)); [discriminate|].
  destruct (resolve_medicines regex_i q barcode db) as [meds|]; [|discriminate].
  intros H. exists meds. split; [reflexivity|].
  destruct (is_empty meds) eqn:Hm.
  { injection H as <-. destruct meds; [|discriminate].
    rewrite stocked_inventories_nil. split; reflexivity. }
  destruct (is_empty (stocked_inventories meds db)) eqn:Hs.
  { injection H as <-.
    destruct (stocked_inventories meds db); [|discriminate].
    split; reflexivity. }
  destruct (traverse bson.ObjectId _) as [oids|]; [|discriminate].
  injection H as <-.
  match goal with
  | |- context [Py.sort _ _ ?rows] =>
      pose proof (sort_Permutation Py.tuple_lt sort_key rows) as Hp
  end.
  split.
  - rewrite (Permutation_map SearchResponseItem.inventory_id Hp).
    rewrite map_map. reflexivity.
  - rewrite (Permutation_length Hp), length_map. reflexivity.
Qed.

Lemma search_one_row_per_inventory_witness :
  exists resp,
    search_inventories (Regex.compile true) (Some "doli") None None None
      Sample.store = Ok resp
    /\ List.length resp = 2%nat.
Proof.
  destruct (search_inventories (Regex.compile true) (Some "doli") None None None
              Sample.store) as [resp|e] eqn:H; [|vm_compute in H; discriminate].
  exists resp. split; [reflexivity|].
  destruct (search_one_row_per_inventory _ _ _ _ _ _ _ H) as (meds & Hres & _ & Hlen).
  vm_compute in Hres. injection Hres as <-. exact Hlen.
Defined.

(** *** Without coordinates *)

Lemma distance_to_no_coordinates (latitude longitude : option Q)
  (ph : PharmacyDoc) :
  latitude = None \/ longitude = None ->
  distance_to latitude longitude ph = None.
Proof.
  intros [-> | ->]; unfold distance_to; [reflexivity|].
  destruct latitude; reflexivity.
Qed.

(** When the query gives no latitude or no longitude, no row has a
    distance and the rows are in ascending order of price. *)
Theorem search_without_coordinates
  (regex_i : string -> option (string -> bool)) (q barcode : option string)
  (latitude longitude : option Q) (db : Store)
  (resp : list SearchResponseItem.t) :
  latitude = None \/ longitude = None ->
  search_inventories regex_i q barcode latitude longitude db = Ok resp ->
  Forall (fun row => SearchResponseItem.distance_km row = None) resp
  /\ StronglySorted
       (fun x y => (SearchResponseItem.price x <= SearchResponseItem.price y)%Q)
       resp.
Proof.
  intros Hc H. apply search_inventories_rows in H as [Hsorted Hrows].
  assert (Hnone : forall row, In row resp ->
                              SearchResponseItem.distance_km row = None).
  { intros row Hrow. destruct (Hrows row Hrow) as [ph ->].
    exact (distance_to_no_coordinates _ _ ph Hc). }
  split; [apply Forall_forall; exact Hnone|].
  clear Hrows. induction Hsorted as [|x l Hl IH Hx]; [constructor|].
  constructor.
  - apply IH. intros row Hrow. apply Hnone. right. exact Hrow.
  - rewrite Forall_forall in *. intros y Hy. specialize (Hx y Hy).
    unfold key_le, sort_key in Hx.
    rewrite (Hnone x (or_introl eq_refl)), (Hnone y (or_intror Hy)) in Hx.
    cbn [fst snd] in Hx. destruct Hx as [Hx|[_ Hx]]; [lra|exact Hx].
Qed.

Lemma search_without_coordinates_witness :
  exists resp,
    search_inventories (Regex.compile true) (Some "doli") None None (Some 0%Q)
      Sample.store_geo = Ok resp
    /\ map SearchResponseItem.price resp = [100%Q; 900%Q]
    /\ Forall (fun row => SearchResponseItem.distance_km row = None) resp.
Proof.
  destruct (search_inventories (Regex.compile true) (Some "doli") None None
              (Some 0%Q) Sample.store_geo) as [resp|e] eqn:H;
    [|vm_compute in H; discriminate].
  exists resp. split; [reflexivity|].
  pose proof (proj1 (search_without_coordinates _ _ _ _ _ _ _
                       (or_introl eq_refl) H)) as Hnone.
  vm_compute in H. injection H as <-.
  split; [reflexivity|exact Hnone].
Defined.

(** *** The range of a computed distance *)





(** *** The pharmacy of a row *)

Lemma find_one_none {A} (c : collection A) (k : bson.oid) :
  (forall x, In x c -> fst x <> k) -> find_one c k = None.
Proof.
  induction c as [|[k' d] c IH]; intros H; [reflexivity|].
  cbn. destruct (String.eqb k' k) eqn:Hk.
  - apply String.eqb_eq in Hk. exfalso.
    exact (H (k', d) (or_introl eq_refl) Hk).
  - apply IH. intros x Hx. apply H. right. exact Hx.
Qed.





(** A row whose [pharmacy_id] is the identifier of no pharmacy document
    is named "Unknown", with an empty address and no distance. *)
Theorem search_unknown_pharmacy
  (regex_i : string -> option (string -> bool)) (q barcode : option string)
  (latitude longitude : option Q) (db : Store)
  (resp : list SearchResponseItem.t) (row : SearchResponseItem.t) :
  search_inventories regex_i q barcode latitude longitude db = Ok resp ->
  In row resp ->
  (forall p, In p (pharmacy db) -> fst p <> SearchResponseItem.pharmacy_id row) ->
  SearchResponseItem.pharmacy_name row = "Unknown"
  /\ SearchResponseItem.pharmacy_address row = ""
  /\ SearchResponseItem.distance_km row = None.
Proof.
  intros H Hrow Hnone.
  destruct (search_inventories_row _ _ _ _ _ _ _ _ H Hrow)
    as (meds & oids & inv & _ & _ & _ & ->).
  cbn [response_item SearchResponseItem.pharmacy_id] in Hnone.
  unfold response_item.
  cbn [SearchResponseItem.pharmacy_name SearchResponseItem.pharmacy_address
       SearchResponseItem.distance_km].
  assert (Hget : dict_get
                   (map (fun p => (bson.str (fst p), snd p))
                        (filter (fun p => existsb (String.eqb (fst p)) oids)
                                (pharmacy db)))
                   (Inventory.pharmacy_id (snd inv)) = None).
  { unfold dict_get. apply find_one_none. intros x Hx.
    apply in_rev in Hx. apply in_map_iff in Hx as (p & <- & Hp).
    apply filter_In in Hp as [Hp _]. exact (Hnone p Hp). }
  rewrite Hget. cbn [or_default no_pharmacy ph_name ph_address].
  repeat split. unfold distance_to. cbn.
  destruct latitude, longitude; reflexivity.
Qed.


(** With a non-empty [barcode] the query text plays no part: the result
    is the same for every [q], also for one the regular-expression engine
    would reject, and for every engine. *)
Theorem search_barcode_ignores_q
  (regex_i regex_i' : string -> option (string -> bool))
  (q q' : option string) (barcode : string)
  (latitude longitude : option Q) (db : Store) :
  Py.truthy (Some barcode) = true ->
  search_inventories regex_i q (Some barcode) latitude longitude db
  = search_inventories regex_i' q' (Some barcode) latitude longitude db.
Proof.
  intros Hb. rewrite !search_inventories_eq.
  rewrite !(guard_passes _ (Some barcode) (or_intror Hb)).
  unfold resolve_medicines. rewrite !(build_med_filter_barcode _ barcode Hb).
  reflexivity.
Qed.

Lemma search_barcode_ignores_q_witness :
  Py.truthy (Some "3400930000001") = true
  /\ Regex.compile true "(" = None
  /\ search_inventories (Regex.compile true) (Some "(") (Some "3400930000001")
       None None Sample.store
     = search_inventories (Regex.compile true) None (Some "3400930000001")
         None None Sample.store.
Proof.
  split; [reflexivity|]. split; [reflexivity|].
  exact (search_barcode_ignores_q _ _ _ _ "3400930000001" None None
           Sample.store eq_refl).
Defined.


Lemma search_unknown_pharmacy_witness :
  exists resp row,
    search_inventories (Regex.compile true) (Some "doli") None None None
      SampleMore.store_orphan = Ok resp
    /\ In row resp
    /\ SearchResponseItem.pharmacy_id row = "777777777777777777777777"
    /\ SearchResponseItem.pharmacy_name row = "Unknown".
Proof.
  destruct (search_inventories (Regex.compile true) (Some "doli") None None None
              SampleMore.store_orphan) as [resp|e] eqn:H;
    [|vm_compute in H; discriminate].
  destruct resp as [|row resp]; [vm_compute in H; discriminate|].
  exists (row :: resp), row. split; [reflexivity|]. split; [left; reflexivity|].
  destruct (search_unknown_pharmacy _ _ _ _ _ _ _ row H (or_introl eq_refl))
    as (Hname & _ & _); [intros p []|].
  vm_compute in H. injection H as <- _.
  split; [reflexivity|exact Hname].
Defined.



(* ----------------------------------------------------------------- *)
(** ** Partner ingestion *)

Lemma create_document_in_order (data : Order.t) (db : Store) :
  create_document_in order_collection data db = create_document data db.
Proof. reflexivity. Qed.

Lemma Inventory_validate_iff (i : Inventory.t) :
  Inventory.validate i = true
  <-> (0 <= Inventory.price i)%Q /\ (0 <= Inventory.stock i)%Z.
Proof.
  unfold Inventory.validate.
  rewrite andb_true_iff, Qle_bool_iff, Z.leb_le. reflexivity.
Qed.

(** [POST /api/inventories] checks the two bounds and nothing else: a
    negative price or a negative stock is refused and the store is
    untouched; any other document, a price of 0 and a stock of 0
    included, is appended to the inventory collection under the generated
    identifier, whatever pharmacy and medicine it names, and the other
    collections are what they were. *)
Theorem add_inventory_checks_bounds_only (i : Inventory.t) (db : Store) :
  ((Inventory.price i < 0)%Q \/ (Inventory.stock i < 0)%Z ->
   POST_api_inventories i db = (Raise RequestValidationError, db))
  /\ ((0 <= Inventory.price i)%Q -> (0 <= Inventory.stock i)%Z ->
      exists db',
        POST_api_inventories i db = (Ok (bson.generate (counter db)), db')
        /\ inventory db' = (inventory db ++ [(bson.generate (counter db), i)])%list
        /\ medicine db' = medicine db
        /\ pharmacy db' = pharmacy db
        /\ order db' = order db).
Proof.
  unfold POST_api_inventories, with_body. split.
  - intros H.
    destruct (Inventory.validate i) eqn:Hv; [|reflexivity].
    apply Inventory_validate_iff in Hv as [Hp Hs].
    destruct H as [H|H]; [lra|lia].
  - intros Hp Hs.
    rewrite (proj2 (Inventory_validate_iff i) (conj Hp Hs)).
    eexists. split; [reflexivity|]. repeat split.
Qed.

Lemma add_inventory_checks_bounds_only_witness :
  let i := Inventory.mk "no such pharmacy" "no such medicine" "Doliprane"
             None None 0 0 in
  exists db',
    POST_api_inventories i Sample.store = (Ok "000000000000000000000000", db')
    /\ List.length (inventory db') = 4%nat.
Proof.
  intros i.
  destruct (proj2 (add_inventory_checks_bounds_only i Sample.store))
    as (db' & H & Hinv & _).
  - unfold Qle. cbn. lia.
  - cbn. lia.
  - exists db'. split; [exact H|]. rewrite Hinv. reflexivity.
Defined.

Lemma prefix_refl (s : string) : String.prefix s s = true.
Proof.
  induction s as [|c s IH]; [reflexivity|].
  cbn. destruct (ascii_dec c c); [exact IH|contradiction].
Qed.

Lemma substring_ci_refl (s : string) : Regex.substring_ci s s = true.
Proof.
  unfold Regex.substring_ci.
  destruct (bson.lower_string s) as [|c t] eqn:Hs; [reflexivity|].
  cbn [Regex.contains]. rewrite prefix_refl. reflexivity.
Qed.

(** A medicine that was ingested is resolved by its barcode, after the
    medicines that carried that barcode before; and by its name, whenever
    the engine matches the name as plain text. *)
Theorem ingested_medicine_is_found
  (regex_i : string -> option (string -> bool)) (m : Medicine.t)
  (db db' : Store) (id : string) :
  POST_api_medicines m db = (Ok id, db') ->
  (forall q b,
      Medicine.barcode m = Some b -> Py.truthy (Some b) = true ->
      resolve_medicines regex_i q (Some b) db'
      = Ok (filter (fun d => eq_some (Medicine.barcode (snd d)) b) (medicine db)
            ++ [(id, m)])%list)
  /\ (forall matcher,
         Py.truthy (Some (Medicine.name m)) = true ->
         regex_i (Medicine.name m) = Some matcher ->
         (forall s, matcher s = Regex.substring_ci (Medicine.name m) s) ->
         exists meds,
           resolve_medicines regex_i (Some (Medicine.name m)) None db' = Ok meds
           /\ In (id, m) meds).
Proof.
  intros H. unfold POST_api_medicines, with_body, add_medicine, bind, ret in H.
  cbn in H. injection H as <- <-. split.
  - intros q b Hb Ht. unfold resolve_medicines.
    rewrite (build_med_filter_barcode q b Ht). cbn [find_medicine].
    cbn [medicine set_counter coll_set medicine_collection set_medicine
         coll_get].
    rewrite filter_app. cbn [filter snd eq_some]. rewrite Hb.
    cbn [eq_some]. rewrite String.eqb_refl. reflexivity.
  - intros matcher Ht Hm Hsub. unfold resolve_medicines.
    rewrite (build_med_filter_q _ None Ht eq_refl). cbn [find_medicine].
    rewrite Hm. eexists. split; [reflexivity|].
    apply filter_In. split.
    + cbn [medicine set_counter coll_set medicine_collection set_medicine
           coll_get].
      apply in_or_app. right. left. reflexivity.
    + cbn [snd]. rewrite Hsub, substring_ci_refl. reflexivity.
Qed.

Lemma ingested_medicine_is_found_witness :
  exists id db',
    POST_api_medicines SampleMore.paracetamol Sample.store = (Ok id, db')
    /\ resolve_medicines (Regex.compile true) None (Some "3400930000002") db'
       = Ok [(id, SampleMore.paracetamol)].
Proof.
  destruct (POST_api_medicines SampleMore.paracetamol Sample.store)
    as [r db'] eqn:H.
  destruct r as [id|e]; [|vm_compute in H; discriminate].
  exists id, db'. split; [reflexivity|].
  rewrite (proj1 (ingested_medicine_is_found (Regex.compile true) _ _ _ _ H)
                 None "3400930000002" eq_refl eq_refl).
  reflexivity.
Defined.

(** An inventory that was ingested can be ordered from at once: a
    request for one item that names the returned identifier, asks for at
    least 1 and at most the ingested stock and needs no prescription is
    placed; the identifier the store generated not being in use. *)
Theorem ingested_inventory_can_be_ordered (i : Inventory.t) (db db' : Store)
  (id : string) (item : OrderItem.t)
  (user_name user_phone pharmacy_id delivery_method : string) :
  POST_api_inventories i db = (Ok id, db') ->
  find_one (inventory db) (bson.generate (counter db)) = None ->
  OrderItem.inventory_id item = id ->
  (1 <= OrderItem.quantity item <= Inventory.stock i)%Z ->
  OrderItem.requires_prescription item = false ->
  In delivery_method delivery_methods ->
  exists resp db'',
    POST_api_orders
      (single_item_request user_name user_phone pharmacy_id delivery_method item)
      db' = (Ok resp, db'')
    /\ (items_total [item]
        == OrderItem.price item * inject_Z (OrderItem.quantity item))%Q.
Proof.
  intros H Hfresh Hid [Hq1 Hq2] Hrx Hdm.
  unfold POST_api_inventories, with_body in H.
  destruct (Inventory.validate i); [|discriminate].
  unfold add_inventory, create_document_in in H. injection H as <- <-.
  rewrite POST_api_orders_eq.
  assert (Hv : CreateOrderRequest.validate
                 (single_item_request user_name user_phone pharmacy_id
                    delivery_method item) = true).
  { unfold CreateOrderRequest.validate, single_item_request. cbn.
    unfold OrderItem.validate. rewrite (proj2 (Z.leb_le _ _) Hq1).
    apply one_of_In in Hdm. unfold one_of in Hdm. cbn in Hdm. rewrite Hdm.
    reflexivity. }
  rewrite Hv. unfold order_rejection.
  cbn [single_item_request CreateOrderRequest.items
       CreateOrderRequest.prescription_url first_rejection needs_prescription
       existsb].
  unfold item_rejection. rewrite Hid. unfold bson.str.
  rewrite ObjectId_generate.
  cbn [inventory set_counter coll_set inventory_collection set_inventory
       coll_get].
  rewrite find_one_app, Hfresh, String.eqb_refl.
  rewrite (proj2 (Z.ltb_ge _ _) Hq2), Hrx. cbn [orb andb].
  eexists. eexists. split; [reflexivity|].
  unfold items_total. cbn [fold_left]. lra.
Qed.

Lemma ingested_inventory_can_be_ordered_witness :
  let i := Inventory.mk Sample.pharm_1 Sample.med_1 "Doliprane" None None 650 3 in
  let item := OrderItem.mk "000000000000000000000000" "Doliprane" 650 3 false in
  exists db' resp db'',
    POST_api_inventories i Sample.store = (Ok "000000000000000000000000", db')
    /\ POST_api_orders
         (single_item_request "Awa" "70000000" Sample.pharm_1 "click_collect" item)
         db' = (Ok resp, db'').
Proof.
  intros i item.
  destruct (POST_api_inventories i Sample.store) as [r db'] eqn:H.
  assert (Hr : r = Ok "000000000000000000000000").
  { vm_compute in H. injection H as <- _. reflexivity. }
  subst r.
  destruct (ingested_inventory_can_be_ordered i Sample.store db'
              "000000000000000000000000" item "Awa" "70000000" Sample.pharm_1
              "click_collect" H eq_refl eq_refl)
    as (resp & db'' & Hpost & _).
  - cbn. lia.
  - reflexivity.
  - right. left. reflexivity.
  - exists db', resp, db''. split; [reflexivity|exact Hpost].
Defined.

(* ----------------------------------------------------------------- *)
(** ** The list of orders *)

Lemma matches_filter_iff (user_phone pharmacy_id : option string) (doc : Order.t) :
  matches_filter (order_filter user_phone pharmacy_id) doc = true
  <-> (forall p, user_phone = Some p -> p <> "" -> Order.user_phone doc = p)
      /\ (forall p, pharmacy_id = Some p -> p <> "" -> Order.pharmacy_id doc = p).
Proof.
  unfold matches_filter, order_filter.
  destruct user_phone as [[|c1 u]|]; destruct pharmacy_id as [[|c2 p]|]; cbn;
    rewrite ?andb_true_r, ?andb_true_iff, ?String.eqb_eq; split.
  all: try (intros H; split; intros x Hx Hne; inversion Hx; subst;
            try contradiction; tauto).
  all: intros [H1 H2]; repeat split;
    first [apply H1 | apply H2]; (reflexivity || discriminate).
Qed.

Lemma In_with_str {A} (l : collection A) (x : string * A) :
  In x (map (fun d => (bson.str (fst d), snd d)) l) <-> In x l.
Proof.
  rewrite in_map_iff. unfold bson.str. split.
  - intros ([k d] & <- & H). exact H.
  - intros H. exists x. destruct x. split; [reflexivity|exact H].
Qed.

(** [GET /api/orders] returns the stored orders that have the given
    [user_phone] and the given [pharmacy_id], all of them and no other; a
    parameter that is absent or empty filters nothing.  The sort of the
    store is only required to return the documents it is given. *)
Theorem list_orders_filters
  (sort_created_at_desc : collection Order.t -> collection Order.t)
  (user_phone pharmacy_id : option string) (db : Store) :
  (forall l x, In x (sort_created_at_desc l) <-> In x l) ->
  forall id doc,
    In (id, doc) (list_orders sort_created_at_desc user_phone pharmacy_id db)
    <-> In (id, doc) (order db)
        /\ (forall p, user_phone = Some p -> p <> "" -> Order.user_phone doc = p)
        /\ (forall p, pharmacy_id = Some p -> p <> "" ->
                       Order.pharmacy_id doc = p).
Proof.
  intros Hsort id doc. unfold list_orders.
  rewrite In_with_str, Hsort, filter_In. cbn [snd].
  rewrite matches_filter_iff. reflexivity.
Qed.

Lemma list_orders_filters_witness :
  (forall (l : collection Order.t) x, In x (rev l) <-> In x l)
  /\ In ("000000000000000000000002",
         SampleMore.order_of "70000000" Sample.pharm_2)
        (list_orders (@rev _) (Some "70000000") (Some "") SampleMore.store_orders)
  /\ ~ In ("000000000000000000000001",
           SampleMore.order_of "71111111" Sample.pharm_1)
          (list_orders (@rev _) (Some "70000000") (Some "") SampleMore.store_orders).
Proof.
  assert (Hrev : forall (l : collection Order.t) x, In x (rev l) <-> In x l).
  { intros l x. symmetry. apply in_rev. }
  split; [exact Hrev|]. split.
  - apply (list_orders_filters (@rev _) _ _ _ Hrev). split.
    + right. right. left. reflexivity.
    + split; intros p Hp Hne; injection Hp as <-; [reflexivity|contradiction].
  - intros Hin.
    apply (list_orders_filters (@rev _) _ _ _ Hrev) in Hin as (_ & Hphone & _).
    specialize (Hphone "70000000" eq_refl ltac:(discriminate)). discriminate.
Defined.
